(** * Wizdom subtitle provider (medusa/subtitle_providers/wizdom.py)

    A shallow embedding of [WizdomSubtitle] and [WizdomProvider] and the
    properties of matching, catalog querying and archive extraction.

    Python values are modelled as follows.  JSON documents decoded by
    [Response.json()] are values of [json] (JSON numbers are the integral
    ones); [None]-able fields are [option]s; [bytes] are lists of bytes; a
    Python [set] of tags is a [gset string]; the [dict] that [query] fills is
    an insertion-ordered association list.  Exceptions are an explicit
    [result]; the HTTP session, the log and the requests sent are threaded
    through a small state-and-error monad. *)

From stdpp Require Import gmap strings list pretty.
From Stdlib Require Import Strings.Byte Strings.Ascii.

Set Warnings "-register-all,-clear-no-such-hyp".
Set Default Proof Using "Type".

(** ** Python values *)

Definition bytes := list byte.

Inductive json :=
| JNull
| JBool (b : bool)
| JInt (n : Z)
| JStr (s : string)
| JArr (l : list json)
| JObj (m : gmap string json).

(** Truth value testing ([if x], [x or y], [not x]). *)
Class Truthy (A : Type) := truthy : A → bool.

#[global] Instance string_truthy : Truthy string :=
  λ s, match s with EmptyString => false | String _ _ => true end.
#[global] Instance Z_truthy : Truthy Z := λ n, negb (n =? 0)%Z.
#[global] Instance option_truthy {A} `{Truthy A} : Truthy (option A) :=
  λ o, match o with None => false | Some a => truthy a end.
#[global] Instance list_truthy {A} : Truthy (list A) :=
  λ l, match l with [] => false | _ :: _ => true end.
#[global] Instance json_truthy : Truthy json :=
  λ j, match j with
       | JNull => false
       | JBool b => b
       | JInt n => truthy n
       | JStr s => truthy s
       | JArr l => truthy l
       | JObj m => negb (bool_decide (size m = 0%nat))
       end.

(** [x or y] where both sides are [None]-able. *)
Definition py_or {A} `{Truthy A} (x y : option A) : option A :=
  if truthy x then x else y.

(** [str(n)] for an [int] and for a [None]-able [int]. *)
Definition str_int (n : Z) : string := pretty n.
Definition str_opt_int (o : option Z) : string :=
  match o with None => "None" | Some n => str_int n end.

(** Exceptions (all of them subclasses of [Exception]). *)
Inductive exn :=
| RequestException                 (* requests: connection error, timeout, ... *)
| HTTPError (status : Z)           (* Response.raise_for_status *)
| JSONDecodeError                  (* a ValueError, from Response.json *)
| BadZipFile                       (* zipfile.ZipFile on a body that is no archive *)
| ProviderError (msg : string)     (* subliminal.exceptions.ProviderError *)
| KeyError
| IndexError
| TypeError
| AttributeError.

Inductive result (A : Type) :=
| Ok (a : A)
| Raise (e : exn).
Arguments Ok {A} a.
Arguments Raise {A} e.

#[global] Instance result_mret : MRet result := @Ok.
#[global] Instance result_mbind : MBind result :=
  λ A B k r, match r with Ok a => k a | Raise e => Raise e end.

(** ** Languages (babelfish) *)

Record Language := mkLanguage {
  alpha3 : string;
  country : option string;
  script : option string
}.

#[global] Instance Language_eq_dec : EqDecision Language.
Proof. solve_decision. Defined.

#[global] Instance Language_countable : Countable Language.
Proof.
  refine (inj_countable' (λ l, (alpha3 l, country l, script l))
                         (λ t, mkLanguage t.1.1 t.1.2 t.2) _).
  by intros [].
Defined.

(** [Language.fromalpha2('he')] *)
Definition hebrew : Language := mkLanguage "heb" None None.

(** ** Videos (subliminal.video) *)

Record EpisodeVideo := mkEpisode {
  ep_name : string;
  ep_series : string;
  ep_season : Z;
  ep_episode : Z;
  ep_title : option string;
  ep_year : option Z;
  ep_imdb_id : option string;
  ep_series_imdb_id : option string
}.

Record MovieVideo := mkMovie {
  mv_name : string;
  mv_title : string;
  mv_year : option Z;
  mv_imdb_id : option string
}.

Inductive video :=
| Episode (e : EpisodeVideo)
| Movie (m : MovieVideo).

Definition video_name (v : video) : string :=
  match v with Episode e => ep_name e | Movie m => mv_name m end.
Definition video_title (v : video) : option string :=
  match v with Episode e => ep_title e | Movie m => Some (mv_title m) end.
Definition video_year (v : video) : option Z :=
  match v with Episode e => ep_year e | Movie m => mv_year m end.
Definition video_imdb_id (v : video) : option string :=
  match v with Episode e => ep_imdb_id e | Movie m => mv_imdb_id m end.

(** ** WizdomSubtitle *)

Record WizdomSubtitle := mkWizdomSubtitle {
  sub_language : Language;
  sub_hearing_impaired : bool;
  sub_page_link : string;
  sub_series : string;
  sub_season : option Z;
  sub_episode : option Z;
  sub_title : string;
  sub_imdb_id : string;
  sub_subtitle_id : json;
  sub_downloaded : Z;
  sub_release : json;
  sub_content : option bytes      (* Subtitle.content, None until downloaded *)
}.

(** [WizdomSubtitle.__init__] *)
Definition WizdomSubtitle_init (language : Language) (hearing_impaired : bool)
    (page_link series : string) (season episode : option Z)
    (title imdb_id : string) (subtitle_id release : json) : WizdomSubtitle :=
  {| sub_language := language;
     sub_hearing_impaired := hearing_impaired;
     sub_page_link := page_link;
     sub_series := series;
     sub_season := season;
     sub_episode := episode;
     sub_title := title;
     sub_imdb_id := imdb_id;
     sub_subtitle_id := subtitle_id;
     sub_downloaded := 0;
     sub_release := release;
     sub_content := None |}.

(** [subtitle.content = data] *)
Definition set_content (s : WizdomSubtitle) (data : bytes) : WizdomSubtitle :=
  {| sub_language := sub_language s;
     sub_hearing_impaired := sub_hearing_impaired s;
     sub_page_link := sub_page_link s;
     sub_series := sub_series s;
     sub_season := sub_season s;
     sub_episode := sub_episode s;
     sub_title := sub_title s;
     sub_imdb_id := sub_imdb_id s;
     sub_subtitle_id := sub_subtitle_id s;
     sub_downloaded := sub_downloaded s;
     sub_release := sub_release s;
     sub_content := Some data |}.

(** ** Reading JSON values the way the Python code does *)

(** [d.get(key, default)]; [d.get(key)] is [d.get(key, None)].  Only a
    [dict] has the method. *)
Definition py_get (j : json) (key : string) (dflt : json) : result json :=
  match j with
  | JObj m => Ok (default dflt (m !! key))
  | _ => Raise AttributeError
  end.

(** [x['key']] with a string key. *)
Definition py_getitem_str (j : json) (key : string) : result json :=
  match j with
  | JObj m => match m !! key with Some x => Ok x | None => Raise KeyError end
  | _ => Raise TypeError
  end.

(** [x[0]] *)
Definition py_getitem_0 (j : json) : result json :=
  match j with
  | JArr (x :: _) => Ok x
  | JArr [] => Raise IndexError
  | JObj _ => Raise KeyError          (* the keys of a decoded object are strings *)
  | JStr (String c _) => Ok (JStr (String c EmptyString))
  | JStr EmptyString => Raise IndexError
  | JNull | JBool _ | JInt _ => Raise TypeError
  end.

(** [l[0]] on a Python list. *)
Definition list_getitem_0 {A} (l : list A) : result A :=
  match l with
  | x :: _ => Ok x
  | [] => Raise IndexError
  end.

Fixpoint string_chars (s : string) : list json :=
  match s with
  | EmptyString => []
  | String c s' => JStr (String c EmptyString) :: string_chars s'
  end.

(** [for x in j]: the items the loop visits. *)
Definition py_iter (j : json) : result (list json) :=
  match j with
  | JArr l => Ok l
  | JObj m => Ok (JStr <$> (map_to_list m).*1)     (* the keys *)
  | JStr s => Ok (string_chars s)
  | JNull | JBool _ | JInt _ => Raise TypeError
  end.

(** [s.replace(c, '')] for a one-character [c]. *)
Fixpoint remove_char (c : ascii) (s : string) : string :=
  match s with
  | EmptyString => EmptyString
  | String a s' =>
      if Ascii.eqb a c then remove_char c s' else String a (remove_char c s')
  end.

(** ** The dict filled by [query]

    Keys are compared with [==] and hashed: [True] and [1] are one key, and
    so are [False] and [0]; lists and dicts are unhashable.  [pykey] is the
    key up to that equality.  The dict keeps the order of first insertion. *)

Inductive pykey :=
| KNone
| KInt (n : Z)
| KStr (s : string).

#[global] Instance pykey_eq_dec : EqDecision pykey.
Proof. solve_decision. Defined.

Definition py_hash_key (j : json) : result pykey :=
  match j with
  | JNull => Ok KNone
  | JBool b => Ok (KInt (if b then 1 else 0))
  | JInt n => Ok (KInt n)
  | JStr s => Ok (KStr s)
  | JArr _ | JObj _ => Raise TypeError
  end.

Definition pydict (V : Type) := list (pykey * V).

(** [d[k] = v] once [k] is hashed. *)
Fixpoint dict_store {V} (d : pydict V) (k : pykey) (v : V) : pydict V :=
  match d with
  | [] => [(k, v)]
  | (k', v') :: d' =>
      if decide (k' = k) then (k', v) :: d' else (k', v') :: dict_store d' k v
  end.

Definition dict_setitem {V} (d : pydict V) (key : json) (v : V) : result (pydict V) :=
  match py_hash_key key with
  | Ok k => Ok (dict_store d k v)
  | Raise e => Raise e
  end.

(** [list(itervalues(d))] *)
Definition itervalues {V} (d : pydict V) : list V := d.*2.

(** ** HTTP session, log and the monad of the provider's methods *)

Record request := mkRequest {
  req_url : string;
  req_headers : list (string * string);
  req_timeout : option Z
}.

Record response := mkResponse {
  status_code : Z;
  content : bytes
}.

Inductive get_outcome :=
| GetRaises (e : exn)
| GetReturns (r : response).

(** What [session.get] does with a request, given the requests sent so far. *)
Definition session := list request → request → get_outcome.

Inductive log_level := DEBUG | INFO | WARNING.

Inductive log_arg :=
| ArgStr (s : string)
| ArgInt (n : option Z)
| ArgSubtitle (s : WizdomSubtitle).

Record log_record := mkLog {
  log_lvl : log_level;
  log_msg : string;
  log_args : list log_arg
}.

Record pstate := mkState {
  sent : list request;
  logged : list log_record
}.

Definition M (S A : Type) : Type := S → S * result A.

Definition M_ret {S A} (a : A) : M S A := λ st, (st, Ok a).

Definition M_bind {S A B} (m : M S A) (k : A → M S B) : M S B :=
  λ st, match m st with
        | (st', Ok a) => k a st'
        | (st', Raise e) => (st', Raise e)
        end.

#[global] Instance M_mret {S} : MRet (M S) := @M_ret S.
#[global] Instance M_mbind {S} : MBind (M S) := λ A B k m, M_bind m k.

Definition raise {S A} (e : exn) : M S A := λ st, (st, Raise e).

Definition lift_result {S A} (r : result A) : M S A := λ st, (st, r).

(** [try: body  except Exception: handler] *)
Definition try_except {S A} (body : M S A) (handler : exn → M S A) : M S A :=
  λ st, match body st with
        | (st', Ok a) => (st', Ok a)
        | (st', Raise e) => handler e st'
        end.

(** A method that works on an object it was handed: the object is the
    second component of the state. *)
Definition lift_env {S O A} (m : M S A) : M (S * O) A :=
  λ st, let '(st', r) := m st.1 in ((st', st.2), r).

Definition read_object {S O} : M (S * O) O := λ st, (st, Ok st.2).

Definition write_object {S O} (f : O → O) : M (S * O) unit :=
  λ st, ((st.1, f st.2), Ok tt).

Definition log (lvl : log_level) (msg : string) (args : list log_arg) : M pstate unit :=
  λ st, ({| sent := sent st; logged := logged st ++ [mkLog lvl msg args] |}, Ok tt).

(** [r.raise_for_status()] *)
Definition raise_for_status {S} (r : response) : M S unit :=
  if ((400 <=? status_code r) && (status_code r <? 600))%Z
  then raise (HTTPError (status_code r))
  else M_ret tt.

(** ** Archives (zipfile) *)

Definition archive := list (string * bytes).

(** [zf.namelist()] *)
Definition namelist (zf : archive) : list string := zf.*1.

(** [zf.read(name)]: the entry registered last under [name]. *)
Definition zf_read (zf : archive) (name : string) : result bytes :=
  match last (filter (λ e, e.1 = name) zf) with
  | Some e => Ok e.2
  | None => Raise KeyError
  end.

(** ** Stand-ins for the imported functions

    Used by the examples and the worked cases that close the file. *)

#[global] Instance byte_eq_dec : EqDecision byte := Byte.byte_eq_dec.

(** [p.rfind(c)]: the index of the last [c], or -1. *)
Fixpoint rfind_from (c : ascii) (p : string) (i found : Z) : Z :=
  match p with
  | EmptyString => found
  | String a p' => rfind_from c p' (i + 1)%Z (if Ascii.eqb a c then i else found)
  end.

Definition rfind (c : ascii) (p : string) : Z := rfind_from c p 0%Z (-1)%Z.

(** The loop of [genericpath._splitext] that skips leading dots: is there,
    within [steps] characters from [filenameIndex], one that is no dot? *)
Fixpoint splitext_scan (p : string) (filenameIndex steps : nat) : bool :=
  match steps with
  | O => false
  | S steps' =>
      match String.get filenameIndex p with
      | Some a =>
          if Ascii.eqb a "." then splitext_scan p (S filenameIndex) steps' else true
      | None => false
      end
  end.

(** [os.path.splitext] of posixpath. *)
Definition posix_splitext (p : string) : string * string :=
  let sepIndex := rfind "/" p in
  let dotIndex := rfind "." p in
  if (sepIndex <? dotIndex)%Z
     && splitext_scan p (Z.to_nat (sepIndex + 1)) (Z.to_nat (dotIndex - (sepIndex + 1)))
  then (String.substring 0 (Z.to_nat dotIndex) p,
        String.substring (Z.to_nat dotIndex) (String.length p - Z.to_nat dotIndex) p)
  else (p, "").

(** [content.replace(b'\r\n', b'\n')] *)
Fixpoint crlf_to_lf (b : bytes) : bytes :=
  match b with
  | [] => []
  | c :: rest =>
      match rest with
      | c' :: _ =>
          if Byte.eqb c x0d && Byte.eqb c' x0a then crlf_to_lf rest
          else c :: crlf_to_lf rest
      | [] => [c]
      end
  end.

(** ASCII lower-casing, as a sanitizer. *)
Definition ascii_lower (c : ascii) : ascii :=
  let n := nat_of_ascii c in
  if (65 <=? n)%nat && (n <=? 90)%nat then ascii_of_nat (n + 32) else c.

Fixpoint lower (s : string) : string :=
  match s with
  | EmptyString => EmptyString
  | String c s' => String (ascii_lower c) (lower s')
  end.

(** A guesser that finds nothing in a release label. *)
Definition no_guessit : json → string → unit := λ _ _, tt.
Definition no_guess_matches : video → unit → gset string := λ _ _, ∅.

(** A decoder given by the table of the bodies it knows. *)
Definition table_decoder {A} (table : list (bytes * A)) (body : bytes) : option A :=
  snd <$> head (filter (λ e, e.1 = body) table).

(** A session that answers its n-th request with the n-th outcome of a
    list, and fails once the list is used up. *)
Definition scripted_session (answers : list get_outcome) : session :=
  λ sent _, default (GetRaises RequestException) (answers !! length sent).

(** [str()] of a list or a dict; the examples never reach it. *)
Definition sample_repr : json → string := λ _, "[...]".

(** Sample data. *)

Definition body_a : bytes := [x61].
Definition body_b : bytes := [x62].

Definition ok_response (body : bytes) : get_outcome :=
  GetReturns {| status_code := 200; content := body |}.

Definition state0 : pstate := {| sent := []; logged := [] |}.

(** A region that holds nothing, and one that holds an identifier for
    "Example Show". *)
Definition cold_region : pstate → string → option Z → bool → option (option string) :=
  λ _ _ _ _, None.
Definition warm_region : pstate → string → option Z → bool → option (option string) :=
  λ _ title _ _,
    if decide (title = "Example Show") then Some (Some "tt1234567") else None.

Definition catalog_records : list json :=
  [JObj {["id" := JInt 9; "versioname" := JStr "Example.Show.S02E05.HDTV"]};
   JObj {["id" := JInt 10; "versioname" := JStr "Example.Show.S02E05.WEB"]};
   JObj {["id" := JInt 9; "versioname" := JStr "Example.Show.S02E05.720p"]}].

Definition example_episode : EpisodeVideo :=
  {| ep_name := "Example.Show.S02E05.mkv";
     ep_series := "Example Show";
     ep_season := 2;
     ep_episode := 5;
     ep_title := None;
     ep_year := None;
     ep_imdb_id := None;
     ep_series_imdb_id := Some "tt1234567" |}.

(** A special: season 0. *)
Definition special_episode : EpisodeVideo :=
  {| ep_name := "Example.Show.S00E03.mkv";
     ep_series := "Example Show";
     ep_season := 0;
     ep_episode := 3;
     ep_title := None;
     ep_year := None;
     ep_imdb_id := None;
     ep_series_imdb_id := Some "tt1234567" |}.

Definition special_candidate : WizdomSubtitle :=
  WizdomSubtitle_init hebrew false "https://wizdom.xyz/#/movies/tt1234567"
    "Example Show" (Some 0%Z) (Some 3%Z) "Example Show" "tt1234567"
    (JInt 9) (JStr "Example.Show.S00E03.HDTV").

Definition example_candidate : WizdomSubtitle :=
  WizdomSubtitle_init hebrew false "https://wizdom.xyz/#/series/tt1234567"
    "Example Show" (Some 2%Z) (Some 5%Z) "Example Show" "tt1234567"
    (JInt 9) (JStr "Example.Show.S02E05.HDTV").

(** The candidates [query] builds from [catalog_records]. *)
Definition candidate_9 : WizdomSubtitle :=
  WizdomSubtitle_init hebrew false "https://wizdom.xyz/#/series/tt1234567"
    "Example Show" (Some 2%Z) (Some 5%Z) "Example Show" "tt1234567"
    (JInt 9) (JStr "Example.Show.S02E05.720p").

Definition candidate_10 : WizdomSubtitle :=
  WizdomSubtitle_init hebrew false "https://wizdom.xyz/#/series/tt1234567"
    "Example Show" (Some 2%Z) (Some 5%Z) "Example Show" "tt1234567"
    (JInt 10) (JStr "Example.Show.S02E05.WEB").

(** A catalog that answers the first request with [catalog_records]. *)
Definition catalog_session : session := scripted_session [ok_response body_a].
Definition catalog_decoder : bytes → option json :=
  table_decoder [(body_a, JArr catalog_records)].

(** A metadata search without results, and one whose detail record has an
    empty imdb_id. *)
Definition no_results_decoder : bytes → option json :=
  table_decoder [(body_a, JObj {["results" := JArr []]})].
Definition tmdb_session : session :=
  scripted_session [ok_response body_a; ok_response body_b].
Definition tmdb_first : gmap string json := {["id" := JInt 1399]}.
Definition tmdb_search_doc : gmap string json :=
  {["results" := JArr [JObj tmdb_first]]}.
Definition tmdb_detail_doc : gmap string json := {["imdb_id" := JStr ""]}.
Definition tmdb_null_decoder : bytes → option json :=
  table_decoder [(body_a, JObj tmdb_search_doc);
                 (body_b, JObj {["imdb_id" := JNull]})].
Definition tmdb_decoder : bytes → option json :=
  table_decoder [(body_a, JObj tmdb_search_doc); (body_b, JObj tmdb_detail_doc)].

(** A metadata search whose detail record carries an identifier, and one
    whose first result has no id. *)
Definition tmdb_found_decoder : bytes → option json :=
  table_decoder [(body_a, JObj tmdb_search_doc);
                 (body_b, JObj {["imdb_id" := JStr "tt1234567"]})].
Definition tmdb_nameless_first : gmap string json := {["name" := JStr "Example Show"]}.
Definition tmdb_nameless_doc : gmap string json :=
  {["results" := JArr [JObj tmdb_nameless_first]]}.
Definition tmdb_nameless_decoder : bytes → option json :=
  table_decoder [(body_a, JObj tmdb_nameless_doc)].

Definition error_response (status : Z) : get_outcome :=
  GetReturns {| status_code := status; content := [] |}.

(** A catalog answer whose second record has no id. *)
Definition record_9 : json :=
  JObj {["id" := JInt 9; "versioname" := JStr "Example.Show.S02E05.HDTV"]}.
Definition record_without_id : json :=
  JObj {["versioname" := JStr "Example.Show.S02E05.WEB"]}.
Definition broken_catalog_decoder : bytes → option json :=
  table_decoder [(body_a, JArr ([record_9] ++ record_without_id :: [record_9]))].

Definition example_movie : MovieVideo :=
  {| mv_name := "Example.Movie.1999.mkv";
     mv_title := "Example Movie";
     mv_year := Some 1999%Z;
     mv_imdb_id := Some "tt0133093" |}.

(** A special of a series whose identifier is not known. *)
Definition special_without_id : EpisodeVideo :=
  {| ep_name := "Example.Show.S00E03.mkv";
     ep_series := "Example Show";
     ep_season := 0;
     ep_episode := 3;
     ep_title := None;
     ep_year := None;
     ep_imdb_id := None;
     ep_series_imdb_id := None |}.

Definition srt_crlf : bytes := [x31; x0d; x0a; x48; x69; x0d; x0a].

Definition zip_one : archive :=
  [("readme.txt", [x68; x69]); ("Example.Show.S02E05.srt", srt_crlf)].
Definition zip_two : archive :=
  [("a/ep.srt", srt_crlf); ("a/ep.sub", [x7b; x30; x7d])].
Definition zip_none : archive :=
  [("readme.txt", [x68; x69]); (".srt", srt_crlf); ("EP.SRT", srt_crlf)].

(** ** The provider

    What the module imports is a parameter of the development:
    [subliminal.utils.sanitize], [guessit.guessit],
    [subliminal.matches.guess_matches], [subliminal.subtitle.fix_line_ending],
    [os.path.splitext], the decoders behind [Response.json()] and
    [zipfile.ZipFile] ([None] when the body does not decode), [str()] of a
    list or dict, the HTTP session the provider was initialized with, and
    the cache region of the host framework ([subliminal.cache.region]):
    [region_get st title year is_movie] is the value the region holds, at the
    moment [st], for a call of [_search_imdb_id] with these arguments, if it
    holds one. *)

Section Wizdom.

Context {guess : Type}.
Variable sanitize : string → string.
Variable guessit : json → string → guess.
Variable guess_matches : video → guess → gset string.
Variable fix_line_ending : bytes → bytes.
Variable splitext : string → string * string.
Variable json_loads : bytes → option json.
Variable ZipFile : bytes → option archive.
Variable repr_container : json → string.
Variable http : session.
Variable region_get : pstate → string → option Z → bool → option (option string).

(** *** WizdomSubtitle.get_matches *)

Definition get_matches (self : WizdomSubtitle) (v : video) : gset string :=
  let matches : gset string := ∅ in
  let matches :=
    match v with
    | Episode e =>
        let matches :=
          if truthy (ep_series e)
             && bool_decide (sanitize (sub_series self) = sanitize (ep_series e))
          then matches ∪ {["series"]} else matches in
        let matches :=
          if truthy (ep_season e)
             && bool_decide (sub_season self = Some (ep_season e))
          then matches ∪ {["season"]} else matches in
        let matches :=
          if truthy (ep_episode e)
             && bool_decide (sub_episode self = Some (ep_episode e))
          then matches ∪ {["episode"]} else matches in
        let matches :=
          if truthy (ep_series_imdb_id e)
             && bool_decide (Some (sub_imdb_id self) = ep_series_imdb_id e)
          then matches ∪ {["series_imdb_id"]} else matches in
        matches ∪ guess_matches v (guessit (sub_release self) "episode")
    | Movie _ =>
        matches ∪ guess_matches v (guessit (sub_release self) "movie")
    end in
  match video_title v with
  | Some t =>
      if truthy t && bool_decide (sanitize (sub_title self) = sanitize t)
      then matches ∪ {["title"]} else matches
  | None => matches
  end.

(** *** WizdomProvider *)

Definition server_url : string := "wizdom.xyz".
Definition _tmdb_api_key : string := "f7f51775877e0bb6703520952b3c7840".

(** [str(x)], also what ['{}'.format(x)] and an f-string field give. *)
Definition py_str (j : json) : string :=
  match j with
  | JNull => "None"
  | JBool true => "True"
  | JBool false => "False"
  | JInt n => str_int n
  | JStr s => s
  | JArr _ | JObj _ => repr_container j
  end.

(** [WizdomSubtitle.id] *)
Definition WizdomSubtitle_id (self : WizdomSubtitle) : string :=
  py_str (sub_subtitle_id self).

(** [self.session.get(url, headers=..., timeout=...)] *)
Definition session_get (rq : request) : M pstate response :=
  λ st,
    let st' := {| sent := sent st ++ [rq]; logged := logged st |} in
    match http (sent st) rq with
    | GetRaises e => (st', Raise e)
    | GetReturns r => (st', Ok r)
    end.

(** [r.json()] *)
Definition response_json {S} (r : response) : M S json :=
  match json_loads (content r) with
  | Some j => mret j
  | None => raise JSONDecodeError
  end.

Definition tmdb_search_request (category title : string) (year : option Z) : request :=
  mkRequest
    ("http://api.tmdb.org/3/search/" +:+ category +:+ "?api_key=" +:+ _tmdb_api_key
       +:+ "&query=" +:+ title
       +:+ (if negb (truthy year) then "" else "&year=" +:+ str_opt_int year)
       +:+ "&language=en")
    [] None.

Definition tmdb_detail_request (category : string) (tmdb_id : json) (is_movie : bool) : request :=
  mkRequest
    ("http://api.tmdb.org/3/" +:+ category +:+ "/" +:+ py_str tmdb_id
       +:+ (if is_movie then "" else "/external_ids")
       +:+ "?api_key=" +:+ _tmdb_api_key +:+ "&language=en")
    [] None.

(** The function that [_search_imdb_id] decorates: what runs when the
    region holds no value for the arguments. *)
Definition _search_imdb_id_body (title : string) (year : option Z) (is_movie : bool)
    : M pstate (option string) :=
  log INFO "Searching IMDB ID for %r%r"
      [ArgStr title;
       ArgStr (if negb (truthy year) then "" else " (" +:+ str_opt_int year +:+ ")")] ;;
  let category := if is_movie then "movie" else "tv" in
  let title := remove_char "'" title in
  r ← session_get (tmdb_search_request category title year);
  raise_for_status r ;;
  j ← response_json r;
  tmdb_results ← lift_result (py_get j "results" JNull);
  if truthy tmdb_results then
    first ← lift_result (py_getitem_0 tmdb_results);
    tmdb_id ← lift_result (py_get first "id" JNull);
    if truthy tmdb_id then
      r ← session_get (tmdb_detail_request category tmdb_id is_movie);
      raise_for_status r ;;
      j ← response_json r;
      imdb_id ← lift_result (py_get j "imdb_id" (JStr ""));
      mret (let s := py_str imdb_id in if truthy s then Some s else None)
    else mret None
  else mret None.

(** [_search_imdb_id], under [@region.cache_on_arguments]: a value the
    region holds for the arguments is returned and the function does not
    run (nothing is logged, nothing is sent); otherwise the function runs.
    What a run leaves in the region shows in later answers of
    [region_get]. *)
Definition _search_imdb_id (title : string) (year : option Z) (is_movie : bool)
    : M pstate (option string) :=
  λ st, match region_get st title year is_movie with
        | Some cached => (st, Ok cached)
        | None => _search_imdb_id_body title year is_movie st
        end.

Definition catalog_request (imdb_id : string) (season episode : option Z) : request :=
  mkRequest
    ("https://" +:+ server_url +:+ "/api/search?action=by_id&imdb=" +:+ imdb_id
       +:+ "&season=" +:+ str_opt_int season
       +:+ "&episode=" +:+ str_opt_int episode)
    [] None.

Definition _get_subtitles_for_episode (imdb_id : string) (season episode : option Z)
    : M pstate json :=
  log DEBUG "Using IMDB ID %r" [ArgStr imdb_id] ;;
  let url := catalog_request imdb_id season episode in
  let results := JArr [] in
  try_except
    (response ← session_get url;
     raise_for_status response ;;
     response_json response)
    (λ _,
       log WARNING "Error trying to search for subtitle for imdb_id: %s, season: %s, episode: %s"
           [ArgStr imdb_id; ArgInt season; ArgInt episode] ;;
       mret results).

Definition query_page_link (is_movie : bool) (imdb_id : string) : string :=
  "https://" +:+ server_url +:+ "/#/"
    +:+ (if is_movie then "movies" else "series") +:+ "/" +:+ imdb_id.

(** What one turn of the loop of [query] computes from a record: the
    candidate and the key it is stored under (the log entry apart). *)
Definition record_candidate (page_link title : string) (season episode : option Z)
    (imdb_id : string) (record : json) : result (pykey * WizdomSubtitle) :=
  subtitle_id ← py_getitem_str record "id";
  release ← py_getitem_str record "versioname";
  k ← py_hash_key subtitle_id;
  mret (k, WizdomSubtitle_init hebrew false page_link title season episode
                               title imdb_id subtitle_id release).

(** The [for result in results] loop of [query]. *)
Fixpoint query_loop (page_link title : string) (season episode : option Z)
    (imdb_id : string) (results : list json) (subtitles : pydict WizdomSubtitle)
    : M pstate (pydict WizdomSubtitle) :=
  match results with
  | [] => mret subtitles
  | result :: results =>
      let language := hebrew in
      let hearing_impaired := false in
      subtitle_id ← lift_result (py_getitem_str result "id");
      release ← lift_result (py_getitem_str result "versioname");
      let subtitle :=
        WizdomSubtitle_init language hearing_impaired page_link title season episode
                            title imdb_id subtitle_id release in
      log DEBUG "Found subtitle %r" [ArgSubtitle subtitle] ;;
      subtitles ← lift_result (dict_setitem subtitles subtitle_id subtitle);
      query_loop page_link title season episode imdb_id results subtitles
  end.

(** [query]; the empty dict returned when no identifier is found is the
    empty list here (the caller only iterates over the result). *)
Definition query (title : string) (season episode year : option Z)
    (filename : string) (imdb_id : option string) : M pstate (list WizdomSubtitle) :=
  let is_movie := negb (truthy season && truthy episode) in
  imdb_id ← (if truthy imdb_id then mret imdb_id
             else _search_imdb_id title year is_movie);
  match imdb_id with
  | Some imdb_id =>
      if negb (truthy imdb_id) then mret [] else
      let page_link := query_page_link is_movie imdb_id in
      log DEBUG "Getting the list of subtitles" [] ;;
      results ← _get_subtitles_for_episode imdb_id season episode;
      results ← lift_result (py_iter results);
      subtitles ← query_loop page_link title season episode imdb_id results [];
      mret (itervalues subtitles)
  | None => mret []
  end.

Definition list_subtitles (v : video) (languages : gset Language)
    : M pstate (list WizdomSubtitle) :=
  let title := match v with Episode e => ep_series e | Movie m => mv_title m end in
  let season := match v with Episode e => Some (ep_season e) | Movie _ => None end in
  let episode := match v with Episode e => Some (ep_episode e) | Movie _ => None end in
  let year := video_year v in
  let filename := video_name v in
  let imdb_id :=
    match v with Episode e => ep_series_imdb_id e | Movie _ => video_imdb_id v end in
  subtitles ← query title season episode year filename imdb_id;
  mret (filter (λ s, sub_language s ∈ languages) subtitles).

Definition download_request (subtitle : WizdomSubtitle) : request :=
  mkRequest
    ("https://" +:+ server_url +:+ "/api/files/sub/" +:+ py_str (sub_subtitle_id subtitle))
    [("Referer", sub_page_link subtitle)] (Some 10%Z).

(** [zipfile.ZipFile(io.BytesIO(body))] *)
Definition open_zip {S} (body : bytes) : M S archive :=
  match ZipFile body with
  | Some zf => mret zf
  | None => raise BadZipFile
  end.

(** The entries of an archive whose extension is .srt or .sub. *)
Definition subtitle_entries (zf : archive) : archive :=
  filter (λ e, (splitext e.1).2 = ".srt" ∨ (splitext e.1).2 = ".sub") zf.

(** The names [download_subtitle] keeps from the archive. *)
Definition subtitle_names (zf : archive) : list string :=
  filter (λ n, (splitext n).2 ∈ [".srt"; ".sub"]) (namelist zf).

(** [download_subtitle], run on the state and on the subtitle object it is
    handed; the object comes back as it is when the method ends. *)
Definition download_subtitle_body : M (pstate * WizdomSubtitle) unit :=
  subtitle ← read_object;
  r ← lift_env (session_get (download_request subtitle));
  raise_for_status r ;;
  zf ← open_zip (content r);
  let namelist := subtitle_names zf in
  if bool_decide (1 < length namelist) then
    raise (ProviderError "More than one file to unzip")
  else
    name ← lift_result (list_getitem_0 namelist);
    data ← lift_result (zf_read zf name);
    write_object (λ s, set_content s (fix_line_ending data)).

Definition download_subtitle (subtitle : WizdomSubtitle) (st : pstate)
    : pstate * WizdomSubtitle * result unit :=
  download_subtitle_body (st, subtitle).

(** ** Properties *)

(** *** Matching *)

Lemma truthy_string_ne (s : string) : truthy s = true ↔ s ≠ "".
Proof. destruct s; simpl; split; (done || congruence). Qed.

Lemma truthy_Z_ne (n : Z) : truthy n = true ↔ n ≠ 0%Z.
Proof.
  unfold truthy, Z_truthy. rewrite negb_true_iff. apply Z.eqb_neq.
Qed.

Lemma elem_of_add_if (b : bool) (t x : string) (s : gset string) :
  x ∈ (if b then s ∪ {[t]} else s) ↔ x ∈ s ∨ (b = true ∧ x = t).
Proof. clear. destruct b; set_solver. Qed.

(** Membership in the result of [get_matches] for an Episode, tag by tag. *)
Lemma elem_of_get_matches_episode (self : WizdomSubtitle) (e : EpisodeVideo) (x : string) :
  x ∈ get_matches self (Episode e) ↔
    (x = "series" ∧ ep_series e ≠ ""
       ∧ sanitize (sub_series self) = sanitize (ep_series e))
    ∨ (x = "season" ∧ ep_season e ≠ 0%Z ∧ sub_season self = Some (ep_season e))
    ∨ (x = "episode" ∧ ep_episode e ≠ 0%Z ∧ sub_episode self = Some (ep_episode e))
    ∨ (x = "series_imdb_id" ∧ sub_imdb_id self ≠ ""
         ∧ ep_series_imdb_id e = Some (sub_imdb_id self))
    ∨ x ∈ guess_matches (Episode e) (guessit (sub_release self) "episode")
    ∨ (x = "title" ∧ ∃ t, ep_title e = Some t ∧ t ≠ ""
         ∧ sanitize (sub_title self) = sanitize t).
Proof.
  clear.
  assert (Hid : truthy (ep_series_imdb_id e) = true
                ∧ Some (sub_imdb_id self) = ep_series_imdb_id e
                ↔ sub_imdb_id self ≠ "" ∧ ep_series_imdb_id e = Some (sub_imdb_id self)).
  { destruct (ep_series_imdb_id e) as [i|]; [|split; intros [? ?]; done].
    change (truthy (Some i)) with (truthy i). rewrite truthy_string_ne.
    split; intros [? ?]; simplify_eq; done. }
  unfold get_matches; simpl.
  assert (Ht : ∀ m : gset string,
    x ∈ match ep_title e with
        | Some t =>
            if truthy t && bool_decide (sanitize (sub_title self) = sanitize t)
            then m ∪ {["title"]} else m
        | None => m
        end
    ↔ x ∈ m ∨ (x = "title" ∧ ∃ t, ep_title e = Some t ∧ t ≠ ""
                 ∧ sanitize (sub_title self) = sanitize t)).
  { intros m. destruct (ep_title e) as [t|].
    - rewrite elem_of_add_if, andb_true_iff, bool_decide_eq_true, truthy_string_ne.
      split; [intros [?|[[? ?] ?]]; eauto 8|].
      intros [?|[? (t' & ? & ? & ?)]]; simplify_eq; eauto.
    - split; [eauto|]. intros [?|[? (t' & ? & _)]]; done. }
  rewrite Ht, elem_of_union.
  rewrite !elem_of_add_if, !andb_true_iff, !bool_decide_eq_true.
  rewrite Hid, truthy_string_ne, !truthy_Z_ne, elem_of_empty.
  split; [intros [[[[[[]|?]|?]|?]|?]|?]|intros [?|[?|[?|[?|[?|?]]]]]]; tauto.
Qed.

(** C1 (as the code has it): for an Episode video each of the four tags is
    in the result exactly when the video's field is truthy (a non-empty
    series, a non-zero season or episode, a non-empty series_imdb_id) and
    equals the candidate's field, or the guesser contributes the tag. *)
Theorem get_matches_episode_tags (self : WizdomSubtitle) (e : EpisodeVideo) :
  let guessed := guess_matches (Episode e) (guessit (sub_release self) "episode") in
  ("series" ∈ get_matches self (Episode e) ↔
     (ep_series e ≠ "" ∧ sanitize (sub_series self) = sanitize (ep_series e))
     ∨ "series" ∈ guessed) ∧
  ("season" ∈ get_matches self (Episode e) ↔
     (ep_season e ≠ 0%Z ∧ sub_season self = Some (ep_season e))
     ∨ "season" ∈ guessed) ∧
  ("episode" ∈ get_matches self (Episode e) ↔
     (ep_episode e ≠ 0%Z ∧ sub_episode self = Some (ep_episode e))
     ∨ "episode" ∈ guessed) ∧
  ("series_imdb_id" ∈ get_matches self (Episode e) ↔
     (sub_imdb_id self ≠ "" ∧ ep_series_imdb_id e = Some (sub_imdb_id self))
     ∨ "series_imdb_id" ∈ guessed).
Proof.
  clear. intros guessed. subst guessed.
  repeat split; rewrite elem_of_get_matches_episode; intros; naive_solver.
Qed.

(** *** Running the monad *)

Lemma bind_run {S A B} (m : M S A) (k : A → M S B) (st : S) :
  (m ≫= k) st = match m st with
                | (st', Ok a) => k a st'
                | (st', Raise e) => (st', Raise e)
                end.
Proof. reflexivity. Qed.

Lemma raise_for_status_ok {S} (r : response) (st : S) :
  ¬ (400 ≤ status_code r < 600)%Z → raise_for_status r st = (st, Ok tt).
Proof.
  clear. intros Hs. unfold raise_for_status.
  destruct (400 <=? status_code r)%Z eqn:H1; [|done].
  destruct (status_code r <? 600)%Z eqn:H2; [|done]. lia.
Qed.

Lemma raise_for_status_error {S} (r : response) (st : S) :
  (400 ≤ status_code r < 600)%Z →
  raise_for_status r st = (st, Raise (HTTPError (status_code r))).
Proof.
  clear. intros [H1 H2]. unfold raise_for_status.
  apply Z.leb_le in H1. apply Z.ltb_lt in H2. by rewrite H1, H2.
Qed.

Lemma raise_for_status_ret {S} (r : response) :
  ¬ (400 ≤ status_code r < 600)%Z → @raise_for_status S r = mret tt.
Proof.
  clear. intros Hs. unfold raise_for_status.
  destruct (400 <=? status_code r)%Z eqn:H1; [|done].
  destruct (status_code r <? 600)%Z eqn:H2; [|done]. lia.
Qed.

Lemma response_json_ret {S} (r : response) (j : json) :
  json_loads (content r) = Some j → @response_json S r = mret j.
Proof. intros H. unfold response_json. by rewrite H. Qed.

Lemma response_json_raise {S} (r : response) :
  json_loads (content r) = None → @response_json S r = raise JSONDecodeError.
Proof. intros H. unfold response_json. by rewrite H. Qed.

Ltac run_monad :=
  unfold mbind, M_mbind, M_bind, mret, M_mret, M_ret, lift_result, raise, log,
    try_except, lift_env, read_object, write_object;
  simpl.

Lemma session_get_returns (rq : request) (r : response) (st : pstate) :
  http (sent st) rq = GetReturns r →
  session_get rq st = ({| sent := sent st ++ [rq]; logged := logged st |}, Ok r).
Proof. intros H. unfold session_get. by rewrite H. Qed.

Lemma session_get_raises (rq : request) (e : exn) (st : pstate) :
  http (sent st) rq = GetRaises e →
  session_get rq st = ({| sent := sent st ++ [rq]; logged := logged st |}, Raise e).
Proof. intros H. unfold session_get. by rewrite H. Qed.

(** *** Catalog search *)

(** C5: whatever goes wrong in the catalog search (the request raises, the
    status is an error, the body is not JSON), [_get_subtitles_for_episode]
    logs a warning and returns the empty list; otherwise it returns the
    decoded document as it is, and logs no warning. *)
Theorem get_subtitles_for_episode_outcomes
    (imdb_id : string) (season episode : option Z) (st : pstate) :
  let rq := catalog_request imdb_id season episode in
  let debug := mkLog DEBUG "Using IMDB ID %r" [ArgStr imdb_id] in
  let warning :=
    mkLog WARNING
      "Error trying to search for subtitle for imdb_id: %s, season: %s, episode: %s"
      [ArgStr imdb_id; ArgInt season; ArgInt episode] in
  ((∃ e, http (sent st) rq = GetRaises e)
   ∨ (∃ r, http (sent st) rq = GetReturns r
           ∧ ((400 ≤ status_code r < 600)%Z ∨ json_loads (content r) = None)) →
   _get_subtitles_for_episode imdb_id season episode st
   = ({| sent := sent st ++ [rq]; logged := logged st ++ [debug; warning] |},
      Ok (JArr [])))
  ∧ (∀ r j, http (sent st) rq = GetReturns r →
            ¬ (400 ≤ status_code r < 600)%Z →
            json_loads (content r) = Some j →
            _get_subtitles_for_episode imdb_id season episode st
            = ({| sent := sent st ++ [rq]; logged := logged st ++ [debug] |}, Ok j)).
Proof.
  intros rq debug warning.
  unfold _get_subtitles_for_episode. fold rq.
  rewrite bind_run. unfold log at 1, try_except. simpl.
  split.
  - intros [[e He]|(r & Hr & Hbad)]; rewrite bind_run.
    + rewrite (session_get_raises rq e) by done. rewrite bind_run. simpl.
      by rewrite <-app_assoc.
    + rewrite (session_get_returns rq r) by done. rewrite bind_run.
      destruct (decide (400 ≤ status_code r < 600)%Z) as [Hs|Hs].
      * rewrite raise_for_status_error by done. rewrite bind_run. simpl.
        by rewrite <-app_assoc.
      * destruct Hbad as [?|Hj]; [done|].
        rewrite raise_for_status_ok by done.
        unfold response_json. rewrite Hj. unfold raise. rewrite bind_run. simpl.
        by rewrite <-app_assoc.
  - intros r j Hr Hs Hj. rewrite bind_run.
    rewrite (session_get_returns rq r) by done. rewrite bind_run.
    rewrite raise_for_status_ok by done.
    unfold response_json. by rewrite Hj.
Qed.

(** *** Identifier resolution *)

(** X24: when the function under [_search_imdb_id] runs and the search
    answers with no results (the array is absent or empty), it returns None
    and the search request is the only one sent; and when the detail record
    has no imdb_id, or an empty string as imdb_id, it returns None as
    well. *)
Theorem search_imdb_id_none
    (title : string) (year : option Z) (is_movie : bool) (st : pstate)
    (r : response) (m : gmap string json) :
  let category := if is_movie then "movie" else "tv" in
  let rq := tmdb_search_request category (remove_char "'" title) year in
  let info :=
    mkLog INFO "Searching IMDB ID for %r%r"
      [ArgStr title;
       ArgStr (if negb (truthy year) then "" else " (" +:+ str_opt_int year +:+ ")")] in
  http (sent st) rq = GetReturns r →
  ¬ (400 ≤ status_code r < 600)%Z →
  json_loads (content r) = Some (JObj m) →
  (m !! "results" = None ∨ m !! "results" = Some (JArr []) →
   _search_imdb_id_body title year is_movie st
   = ({| sent := sent st ++ [rq]; logged := logged st ++ [info] |}, Ok None))
  ∧ (∀ (first : gmap string json) (others : list json) (tmdb_id : json)
       (r' : response) (d : gmap string json),
       m !! "results" = Some (JArr (JObj first :: others)) →
       first !! "id" = Some tmdb_id →
       truthy tmdb_id = true →
       http (sent st ++ [rq]) (tmdb_detail_request category tmdb_id is_movie)
       = GetReturns r' →
       ¬ (400 ≤ status_code r' < 600)%Z →
       json_loads (content r') = Some (JObj d) →
       d !! "imdb_id" = None ∨ d !! "imdb_id" = Some (JStr "") →
       _search_imdb_id_body title year is_movie st
       = ({| sent := sent st ++ [rq; tmdb_detail_request category tmdb_id is_movie];
             logged := logged st ++ [info] |}, Ok None)).
Proof.
  intros category rq info Hr Hs Hj.
  unfold _search_imdb_id_body. fold category. fold rq.
  run_monad. fold info.
  rewrite (session_get_returns rq r) by done.
  rewrite (raise_for_status_ret r), (response_json_ret r (JObj m)) by done.
  run_monad.
  split.
  - by intros [-> | ->].
  - intros first others tmdb_id r' d Hm Hid Ht Hr' Hs' Hj' Hd.
    rewrite Hm. simpl. rewrite Hid. simpl. rewrite Ht.
    rewrite (session_get_returns _ r') by done.
    rewrite (raise_for_status_ret r'), (response_json_ret r' (JObj d)) by done.
    run_monad. rewrite <-app_assoc. simpl.
    by destruct Hd as [-> | ->].
Qed.

(** *** Download *)

Lemma subtitle_names_entries (zf : archive) :
  subtitle_names zf = (subtitle_entries zf).*1.
Proof.
  clear -splitext. unfold subtitle_names, subtitle_entries, namelist.
  induction zf as [|[n b] zf IH]; [done|].
  assert (Hiff : (splitext n).2 ∈ [".srt"; ".sub"]
                 ↔ (splitext n).2 = ".srt" ∨ (splitext n).2 = ".sub").
  { rewrite !elem_of_cons, elem_of_nil. tauto. }
  rewrite fmap_cons. simpl.
  destruct (decide ((splitext n).2 ∈ [".srt"; ".sub"])) as [Hin|Hin].
  - rewrite filter_cons_True by done.
    rewrite (filter_cons_True _ (n, b)) by (simpl; tauto).
    by rewrite fmap_cons, IH.
  - rewrite filter_cons_False by done.
    rewrite (filter_cons_False _ (n, b)) by (simpl; tauto).
    by rewrite IH.
Qed.

(** The only entry with a subtitle extension is the one its name reads. *)
Lemma zf_read_only_entry (zf : archive) (name : string) (data : bytes) :
  subtitle_entries zf = [(name, data)] → zf_read zf name = Ok data.
Proof.
  clear -splitext. intros Hone. unfold zf_read.
  assert (Hq : (splitext name).2 = ".srt" ∨ (splitext name).2 = ".sub").
  { assert (Hin : (name, data) ∈ subtitle_entries zf) by (rewrite Hone; left).
    unfold subtitle_entries in Hin. by apply list_elem_of_filter in Hin as [? _]. }
  rewrite <-(list_filter_filter_l (λ e : string * bytes, e.1 = name)
               (λ e, (splitext e.1).2 = ".srt" ∨ (splitext e.1).2 = ".sub")).
  - change (filter _ zf) with (subtitle_entries zf). rewrite Hone.
    rewrite filter_cons_True by done. done.
  - intros [n b] Hn. simpl in *. by subst.
Qed.

Lemma download_subtitle_opened
    (subtitle : WizdomSubtitle) (st : pstate) (r : response) (zf : archive) :
  http (sent st) (download_request subtitle) = GetReturns r →
  ¬ (400 ≤ status_code r < 600)%Z →
  ZipFile (content r) = Some zf →
  download_subtitle subtitle st
  = let st' := {| sent := sent st ++ [download_request subtitle];
                  logged := logged st |} in
    if bool_decide (1 < length (subtitle_names zf)) then
      (st', subtitle, Raise (ProviderError "More than one file to unzip"))
    else
      match list_getitem_0 (subtitle_names zf) with
      | Ok name =>
          match zf_read zf name with
          | Ok data => (st', set_content subtitle (fix_line_ending data), Ok tt)
          | Raise e => (st', subtitle, Raise e)
          end
      | Raise e => (st', subtitle, Raise e)
      end.
Proof.
  intros Hr Hs Hz. unfold download_subtitle, download_subtitle_body.
  run_monad. rewrite (session_get_returns _ r) by done.
  rewrite (raise_for_status_ret r) by done.
  unfold open_zip. rewrite Hz. run_monad.
  case_bool_decide; run_monad; [done|].
  destruct (list_getitem_0 (subtitle_names zf)) as [name|e]; [|done].
  by destruct (zf_read zf name).
Qed.

(** C2: an archive with more than one entry whose extension is .srt or .sub
    makes [download_subtitle] raise the provider error, and the subtitle
    object is left as it was. *)
Theorem download_subtitle_ambiguous_archive
    (subtitle : WizdomSubtitle) (st : pstate) (r : response) (zf : archive) :
  http (sent st) (download_request subtitle) = GetReturns r →
  ¬ (400 ≤ status_code r < 600)%Z →
  ZipFile (content r) = Some zf →
  1 < length (subtitle_entries zf) →
  download_subtitle subtitle st
  = ({| sent := sent st ++ [download_request subtitle]; logged := logged st |},
     subtitle, Raise (ProviderError "More than one file to unzip")).
Proof.
  intros Hr Hs Hz Hmany. rewrite (download_subtitle_opened _ _ r zf) by done.
  rewrite subtitle_names_entries, length_fmap. simpl.
  by rewrite bool_decide_eq_true_2.
Qed.

(** C3: an archive with exactly one entry whose extension is .srt or .sub
    makes [download_subtitle] set the content of the subtitle to the bytes
    of that entry, passed through [fix_line_ending]. *)
Theorem download_subtitle_single_entry
    (subtitle : WizdomSubtitle) (st : pstate) (r : response) (zf : archive)
    (name : string) (data : bytes) :
  http (sent st) (download_request subtitle) = GetReturns r →
  ¬ (400 ≤ status_code r < 600)%Z →
  ZipFile (content r) = Some zf →
  subtitle_entries zf = [(name, data)] →
  download_subtitle subtitle st
  = ({| sent := sent st ++ [download_request subtitle]; logged := logged st |},
     {| sub_language := sub_language subtitle;
        sub_hearing_impaired := sub_hearing_impaired subtitle;
        sub_page_link := sub_page_link subtitle;
        sub_series := sub_series subtitle;
        sub_season := sub_season subtitle;
        sub_episode := sub_episode subtitle;
        sub_title := sub_title subtitle;
        sub_imdb_id := sub_imdb_id subtitle;
        sub_subtitle_id := sub_subtitle_id subtitle;
        sub_downloaded := sub_downloaded subtitle;
        sub_release := sub_release subtitle;
        sub_content := Some (fix_line_ending data) |},
     Ok tt)
  ∧ sub_content (download_subtitle subtitle st).1.2 = Some (fix_line_ending data).
Proof.
  intros Hr Hs Hz Hone. rewrite (download_subtitle_opened _ _ r zf) by done.
  rewrite subtitle_names_entries, Hone. simpl.
  by rewrite (zf_read_only_entry zf name data Hone).
Qed.

(** C8: with no entry whose extension is .srt or .sub, [download_subtitle]
    fails with the IndexError of the unguarded [namelist[0]] and leaves the
    subtitle object as it was; with at least one such entry it does not
    fail that way. *)
Theorem download_subtitle_no_entry
    (subtitle : WizdomSubtitle) (st : pstate) (r : response) (zf : archive) :
  http (sent st) (download_request subtitle) = GetReturns r →
  ¬ (400 ≤ status_code r < 600)%Z →
  ZipFile (content r) = Some zf →
  (subtitle_entries zf = [] →
   download_subtitle subtitle st
   = ({| sent := sent st ++ [download_request subtitle]; logged := logged st |},
      subtitle, Raise IndexError))
  ∧ (subtitle_entries zf ≠ [] →
     (download_subtitle subtitle st).2 ≠ Raise IndexError).
Proof.
  intros Hr Hs Hz. rewrite (download_subtitle_opened _ _ r zf) by done.
  rewrite subtitle_names_entries. simpl. split.
  - by intros ->.
  - intros Hne. case_bool_decide; [done|].
    destruct (subtitle_entries zf) as [|[name data] rest] eqn:He; [done|].
    simpl. unfold zf_read.
    destruct (last (filter (λ e : string * bytes, e.1 = name) zf)); done.
Qed.

(** *** The dict of candidates *)

Lemma dict_store_keys {V} (d : pydict V) (k : pykey) (v : V) :
  (dict_store d k v).*1 = if decide (k ∈ d.*1) then d.*1 else d.*1 ++ [k].
Proof.
  clear. induction d as [|[k' v'] d IH]; [done|].
  cbn [dict_store]. destruct (decide (k' = k)) as [->|Hne]; rewrite !fmap_cons; cbn [fst].
  - rewrite decide_True; [done|]. left.
  - rewrite IH. destruct (decide (k ∈ d.*1)) as [Hin|Hin].
    + rewrite decide_True; [done|]. by right.
    + rewrite decide_False; [done|].
      rewrite elem_of_cons. intros [?|?]; congruence.
Qed.

Lemma dict_store_NoDup {V} (d : pydict V) (k : pykey) (v : V) :
  NoDup d.*1 → NoDup (dict_store d k v).*1.
Proof.
  clear. intros Hd. rewrite dict_store_keys. case_decide; [done|].
  apply NoDup_app. split_and!; [done| |apply NoDup_singleton].
  intros x Hx ->%list_elem_of_singleton. done.
Qed.

Lemma elem_of_dict_store {V} (d : pydict V) (k k' : pykey) (v v' : V) :
  NoDup d.*1 →
  (k', v') ∈ dict_store d k v ↔ (k' = k ∧ v' = v) ∨ (k' ≠ k ∧ (k', v') ∈ d).
Proof.
  clear. induction d as [|[k0 v0] d IH]; simpl; intros Hd.
  - rewrite list_elem_of_singleton, elem_of_nil.
    split; [intros [= -> ->]; by left|intros [[-> ->]|[_ []]]; done].
  - apply NoDup_cons in Hd as [Hk0 Hd].
    destruct (decide (k0 = k)) as [->|Hne].
    + rewrite !elem_of_cons. split.
      * intros [[= -> ->]|Hin]; [by left|]. right. split; [|by right].
        intros ->. apply Hk0. apply list_elem_of_fmap. by exists (k, v').
      * intros [[-> ->]|[Hne [[= ? ?]|Hin]]]; [by left|done|by right].
    + rewrite !elem_of_cons, IH by done. split.
      * intros [[= -> ->]|[[-> ->]|[? ?]]]; [right|by left|right]; split; auto.
      * intros [[-> ->]|[? [[= -> ->]|?]]]; [right|by left|right]; auto.
Qed.

(** After storing a run of pairs in an empty dict, the keys are distinct
    and each key holds the value of its last pair. *)
Lemma dict_fill_last_wins {V} (kvs : list (pykey * V)) :
  let d := foldl (λ d kv, dict_store d kv.1 kv.2) [] kvs in
  NoDup d.*1
  ∧ ∀ k v, (k, v) ∈ d ↔
      ∃ i, kvs !! i = Some (k, v)
           ∧ ∀ j kv', i < j → kvs !! j = Some kv' → kv'.1 ≠ k.
Proof.
  clear. induction kvs as [|[k0 v0] kvs [IHn IHm]] using rev_ind; simpl.
  - split; [constructor|]. intros k v. rewrite elem_of_nil.
    split; [done|]. intros (i & Hi & _). by rewrite lookup_nil in Hi.
  - rewrite foldl_snoc. simpl. split; [by apply dict_store_NoDup|].
    intros k v. rewrite elem_of_dict_store by done. rewrite IHm. split.
    + intros [[-> ->]|[Hne (i & Hi & Hlast)]].
      * exists (length kvs). split; [by rewrite list_lookup_middle|].
        intros j kv' Hj Hkv'. apply lookup_lt_Some in Hkv'.
        rewrite length_app in Hkv'. simpl in Hkv'. lia.
      * exists i. split; [by apply lookup_app_l_Some|].
        intros j kv' Hj Hkv'.
        apply lookup_app_Some in Hkv' as [Hkv'|[Hge Hkv']]; [by eapply Hlast|].
        apply list_lookup_singleton_Some in Hkv' as [_ <-]. done.
    + intros (i & Hi & Hlast).
      apply lookup_app_Some in Hi as [Hi|[Hge Hi]].
      * right. split.
        -- intros ->. apply (Hlast (length kvs) (k0, v0)); [|by rewrite list_lookup_middle|done].
           by apply lookup_lt_Some in Hi.
        -- exists i. split; [done|]. intros j kv' Hj Hkv'.
           apply (Hlast j kv' Hj). by apply lookup_app_l_Some.
      * apply list_lookup_singleton_Some in Hi as [_ [= -> ->]]. by left.
Qed.

(** *** The loop of [query] *)

Lemma query_loop_cons_Ok (page_link title : string) (season episode : option Z)
    (imdb_id : string) (r : json) (results : list json)
    (d : pydict WizdomSubtitle) (st : pstate) (k : pykey) (subtitle : WizdomSubtitle) :
  record_candidate page_link title season episode imdb_id r = Ok (k, subtitle) →
  query_loop page_link title season episode imdb_id (r :: results) d st
  = query_loop page_link title season episode imdb_id results
      (dict_store d k subtitle)
      {| sent := sent st;
         logged := logged st
           ++ [mkLog DEBUG "Found subtitle %r" [ArgSubtitle subtitle]] |}.
Proof.
  clear. cbn [query_loop]. unfold record_candidate, dict_setitem. run_monad.
  destruct (py_getitem_str r "id") as [sid|]; simpl; [|done].
  destruct (py_getitem_str r "versioname") as [rel|]; simpl; [|done].
  destruct (py_hash_key sid); simpl; [|done]. by intros [= <- <-].
Qed.

Lemma query_loop_cons_Raise (page_link title : string) (season episode : option Z)
    (imdb_id : string) (r : json) (results : list json)
    (d : pydict WizdomSubtitle) (st : pstate) (e : exn) :
  record_candidate page_link title season episode imdb_id r = Raise e →
  ∃ st', query_loop page_link title season episode imdb_id (r :: results) d st
         = (st', Raise e).
Proof.
  clear. cbn [query_loop]. unfold record_candidate, dict_setitem. run_monad.
  destruct (py_getitem_str r "id") as [sid|]; simpl; [|intros [= <-]; eauto].
  destruct (py_getitem_str r "versioname") as [rel|]; simpl; [|intros [= <-]; eauto].
  destruct (py_hash_key sid); simpl; [done|intros [= <-]; eauto].
Qed.

Lemma query_loop_Ok_inv (page_link title : string) (season episode : option Z)
    (imdb_id : string) (results : list json) :
  ∀ (d d' : pydict WizdomSubtitle) (st st' : pstate),
    query_loop page_link title season episode imdb_id results d st = (st', Ok d') →
    sent st' = sent st
    ∧ ∃ kvs,
        Forall2 (λ r kv, record_candidate page_link title season episode imdb_id r = Ok kv)
                results kvs
        ∧ d' = foldl (λ d kv, dict_store d kv.1 kv.2) d kvs.
Proof.
  clear. induction results as [|r results IH]; intros d d' st st' Hrun.
  - injection Hrun as <- <-. split; [done|]. exists []. split; [constructor|done].
  - destruct (record_candidate page_link title season episode imdb_id r)
      as [[k subtitle]|e] eqn:Hr.
    2:{ apply (query_loop_cons_Raise _ _ _ _ _ _ results d st) in Hr as [? Hr].
        congruence. }
    rewrite (query_loop_cons_Ok _ _ _ _ _ _ _ _ _ k subtitle) in Hrun by done.
    apply IH in Hrun as (Hsent & kvs & Hkvs & ->).
    split; [done|]. exists ((k, subtitle) :: kvs). split; [by constructor|done].
Qed.

Lemma query_loop_total (page_link title : string) (season episode : option Z)
    (imdb_id : string) (results : list json) :
  Forall (λ r, ∃ kv, record_candidate page_link title season episode imdb_id r = Ok kv)
         results →
  ∀ (d : pydict WizdomSubtitle) (st : pstate),
    ∃ st' d',
      query_loop page_link title season episode imdb_id results d st = (st', Ok d').
Proof.
  clear. induction 1 as [|r results [[k subtitle] Hr] _ IH]; intros d st.
  - by exists st, d.
  - rewrite (query_loop_cons_Ok _ _ _ _ _ _ _ _ _ k subtitle) by done. apply IH.
Qed.

Lemma record_candidate_Ok (page_link title : string) (season episode : option Z)
    (imdb_id : string) (r : json) (k : pykey) (subtitle : WizdomSubtitle) :
  record_candidate page_link title season episode imdb_id r = Ok (k, subtitle) ↔
    ∃ m sid rel,
      r = JObj m ∧ m !! "id" = Some sid ∧ m !! "versioname" = Some rel
      ∧ py_hash_key sid = Ok k
      ∧ subtitle = WizdomSubtitle_init hebrew false page_link title season episode
                                       title imdb_id sid rel.
Proof.
  clear. unfold record_candidate, py_getitem_str. split.
  - destruct r as [| | | | |m]; try done. simpl.
    destruct (m !! "id") as [sid|] eqn:Hid; [|done]. simpl.
    destruct (m !! "versioname") as [rel|] eqn:Hrel; [|done]. simpl.
    destruct (py_hash_key sid) as [k'|] eqn:Hk; [|done]. simpl.
    intros [= <- <-]. by exists m, sid, rel.
  - intros (m & sid & rel & -> & Hid & Hrel & Hk & ->). simpl.
    rewrite Hid. simpl. rewrite Hrel. simpl. by rewrite Hk.
Qed.

(** *** query *)

(** The catalog search sends its one request and never raises. *)
Lemma get_subtitles_for_episode_sent (imdb_id : string) (season episode : option Z)
    (st : pstate) :
  ∃ lg j,
    _get_subtitles_for_episode imdb_id season episode st
    = ({| sent := sent st ++ [catalog_request imdb_id season episode]; logged := lg |},
       Ok j).
Proof.
  unfold _get_subtitles_for_episode. run_monad. unfold session_get. simpl.
  destruct (http (sent st) (catalog_request imdb_id season episode)) as [e|r];
    [by eauto|].
  unfold raise_for_status. destruct (_ && _); run_monad; [by eauto|].
  unfold response_json. destruct (json_loads (content r)); run_monad; by eauto.
Qed.

(** How a run of [query] that returns came about. *)
Lemma query_Ok_inv (title : string) (season episode year : option Z)
    (filename : string) (imdb_id : option string) (st st' : pstate)
    (subs : list WizdomSubtitle) :
  let is_movie := negb (truthy season && truthy episode) in
  query title season episode year filename imdb_id st = (st', Ok subs) →
  subs = []
  ∨ ∃ id st1 st2 j results d,
      id ≠ ""
      ∧ (if truthy imdb_id then mret imdb_id
         else _search_imdb_id title year is_movie) st = (st1, Ok (Some id))
      ∧ _get_subtitles_for_episode id season episode
          (log DEBUG "Getting the list of subtitles" [] st1).1 = (st2, Ok j)
      ∧ py_iter j = Ok results
      ∧ query_loop (query_page_link is_movie id) title season episode id results [] st2
        = (st', Ok d)
      ∧ subs = itervalues d.
Proof.
  intros is_movie. unfold query. fold is_movie. rewrite bind_run.
  destruct ((if truthy imdb_id then mret imdb_id
             else _search_imdb_id title year is_movie) st)
    as [st1 [[id|]|e]] eqn:Hres; [| |done].
  2:{ intros [= _ <-]. by left. }
  destruct (truthy id) eqn:Hid; simpl.
  2:{ intros [= _ <-]. by left. }
  rewrite bind_run. simpl. rewrite bind_run.
  destruct (_get_subtitles_for_episode id season episode _) as [st2 [j|e]] eqn:Hget;
    [|done].
  rewrite bind_run. unfold lift_result at 1.
  destruct (py_iter j) as [results|e] eqn:Hiter; [|done].
  rewrite bind_run.
  destruct (query_loop _ _ _ _ _ results [] st2) as [st3 [d|e]] eqn:Hloop; [|done].
  intros [= <- <-]. right. exists id, st1, st2, j, results, d.
  split_and!; try done. by apply truthy_string_ne.
Qed.

(** What [query] returns once the identifier is known and the catalog has
    answered with an array. *)
Lemma query_run (title : string) (season episode year : option Z)
    (filename : string) (imdb_id : option string) (st st1 st2 : pstate)
    (id : string) (records : list json) :
  let is_movie := negb (truthy season && truthy episode) in
  (if truthy imdb_id then mret imdb_id
   else _search_imdb_id title year is_movie) st = (st1, Ok (Some id)) →
  id ≠ "" →
  _get_subtitles_for_episode id season episode
    (log DEBUG "Getting the list of subtitles" [] st1).1 = (st2, Ok (JArr records)) →
  query title season episode year filename imdb_id st
  = match query_loop (query_page_link is_movie id) title season episode id records [] st2 with
    | (st3, Ok d) => (st3, Ok (itervalues d))
    | (st3, Raise e) => (st3, Raise e)
    end.
Proof.
  intros is_movie Hres Hid Hget. unfold query. fold is_movie.
  rewrite bind_run, Hres. apply truthy_string_ne in Hid. rewrite Hid. simpl.
  rewrite bind_run. simpl. rewrite bind_run. simpl in Hget. rewrite Hget.
  rewrite bind_run. unfold lift_result at 1. simpl. rewrite bind_run.
  by destruct (query_loop _ _ _ _ _ records [] st2) as [st3 [d|e]].
Qed.

(** C4: for a catalog response whose records carry an id and a versioname,
    [query] returns a list in which no two candidates have the same
    subtitle_id, and the candidates returned are exactly those built from
    the records that are the last of the response with their id. *)
Theorem query_duplicate_ids_last_wins
    (title : string) (season episode year : option Z) (filename : string)
    (imdb_id : option string) (st st1 st2 : pstate) (id : string)
    (records : list json) :
  let is_movie := negb (truthy season && truthy episode) in
  let candidate :=
    WizdomSubtitle_init hebrew false (query_page_link is_movie id) title season
                        episode title id in
  (if truthy imdb_id then mret imdb_id
   else _search_imdb_id title year is_movie) st = (st1, Ok (Some id)) →
  id ≠ "" →
  _get_subtitles_for_episode id season episode
    (log DEBUG "Getting the list of subtitles" [] st1).1 = (st2, Ok (JArr records)) →
  Forall (λ r, ∃ m sid rel k,
            r = JObj m ∧ m !! "id" = Some sid ∧ m !! "versioname" = Some rel
            ∧ py_hash_key sid = Ok k) records →
  ∃ st3 subs,
    query title season episode year filename imdb_id st = (st3, Ok subs)
    ∧ (∀ i j s1 s2,
         subs !! i = Some s1 → subs !! j = Some s2 →
         py_hash_key (sub_subtitle_id s1) = py_hash_key (sub_subtitle_id s2) →
         i = j)
    ∧ (∀ s, s ∈ subs ↔
         ∃ i m sid rel,
           records !! i = Some (JObj m)
           ∧ m !! "id" = Some sid ∧ m !! "versioname" = Some rel
           ∧ s = candidate sid rel
           ∧ ∀ j m' sid',
               i < j → records !! j = Some (JObj m') → m' !! "id" = Some sid' →
               py_hash_key sid' ≠ py_hash_key sid).
Proof.
  intros is_movie candidate Hres Hid Hget Hwf.
  rewrite (query_run _ _ _ _ _ _ _ st1 st2 id records) by done. fold is_movie.
  set (pl := query_page_link is_movie id).
  destruct (query_loop_total pl title season episode id records) with (d := @nil (pykey * WizdomSubtitle)) (st := st2)
    as (st3 & d & Hloop).
  { eapply Forall_impl; [exact Hwf|]. intros r (m & sid & rel & k & ? & ? & ? & ?).
    exists (k, candidate sid rel). apply record_candidate_Ok. by exists m, sid, rel. }
  rewrite Hloop. exists st3, (itervalues d). split; [done|].
  apply query_loop_Ok_inv in Hloop as (_ & kvs & Hkvs & ->).
  destruct (dict_fill_last_wins kvs) as [Hnodup Hmem].
  set (d := foldl (λ d kv, dict_store d kv.1 kv.2) [] kvs) in *.
  assert (Hkey : ∀ k s, (k, s) ∈ d → py_hash_key (sub_subtitle_id s) = Ok k).
  { intros k s (i & Hi & _)%Hmem.
    destruct (Forall2_lookup_r _ _ _ _ _ Hkvs Hi) as (r & _ & Hr).
    apply record_candidate_Ok in Hr as (m & sid & rel & _ & _ & _ & Hk & ->). done. }
  split.
  - intros i j s1 s2 Hi Hj Heq. unfold itervalues in Hi, Hj.
    rewrite list_lookup_fmap in Hi, Hj.
    apply fmap_Some in Hi as ([k1 s1'] & Hi' & ->).
    apply fmap_Some in Hj as ([k2 s2'] & Hj' & ->). simpl in Heq.
    rewrite (Hkey k1 s1'), (Hkey k2 s2') in Heq
      by (eapply list_elem_of_lookup_2; eassumption).
    injection Heq as ->.
    apply (NoDup_lookup _ i j k2 Hnodup); rewrite list_lookup_fmap.
    + by rewrite Hi'.
    + by rewrite Hj'.
  - intros s. unfold itervalues. rewrite list_elem_of_fmap. split.
    + intros ([k s'] & -> & (i & Hi & Hlast)%Hmem). simpl.
      destruct (Forall2_lookup_r _ _ _ _ _ Hkvs Hi) as (r & Hri & Hr).
      apply record_candidate_Ok in Hr as (m & sid & rel & -> & Hmid & Hrel & Hk & ->).
      exists i, m, sid, rel. split_and!; try done.
      intros j m' sid' Hij Hj Hmid' Heq.
      destruct (Forall2_lookup_l _ _ _ _ _ Hkvs Hj) as ([k' s'] & Hkj & Hr').
      apply record_candidate_Ok in Hr'
        as (m'' & sid'' & rel'' & [= <-] & Hmid'' & _ & Hk' & _).
      rewrite Hmid' in Hmid''. injection Hmid'' as <-.
      apply (Hlast j (k', s') Hij Hkj). simpl. congruence.
    + intros (i & m & sid & rel & Hri & Hmid & Hrel & -> & Hlast).
      destruct (Forall2_lookup_l _ _ _ _ _ Hkvs Hri) as ([k s'] & Hki & Hr).
      pose proof Hr as Hr0.
      apply record_candidate_Ok in Hr
        as (m' & sid' & rel' & [= <-] & Hmid' & Hrel' & Hk & ->).
      rewrite Hmid in Hmid'. injection Hmid' as <-.
      rewrite Hrel in Hrel'. injection Hrel' as <-.
      exists (k, candidate sid rel). split; [done|]. apply Hmem.
      exists i. split; [done|]. intros j [k' s''] Hij Hkj. simpl. intros ->.
      destruct (Forall2_lookup_r _ _ _ _ _ Hkvs Hkj) as (r' & Hrj & Hr').
      apply record_candidate_Ok in Hr'
        as (m'' & sid'' & rel'' & -> & Hmid'' & _ & Hk'' & _).
      apply (Hlast j m'' sid'' Hij Hrj Hmid''). congruence.
Qed.

(** Every candidate [query] returns was built from a record of the
    catalog's answer to the search for the identifier in use. *)
Lemma query_candidate_built (title : string) (season episode year : option Z)
    (filename : string) (imdb_id : option string) (st st' : pstate)
    (subs : list WizdomSubtitle) (s : WizdomSubtitle) :
  let is_movie := negb (truthy season && truthy episode) in
  query title season episode year filename imdb_id st = (st', Ok subs) →
  s ∈ subs →
  ∃ id st1 st2 j results m sid rel,
    _get_subtitles_for_episode id season episode st1 = (st2, Ok j)
    ∧ sent st' = sent st2
    ∧ py_iter j = Ok results
    ∧ JObj m ∈ results
    ∧ m !! "id" = Some sid ∧ m !! "versioname" = Some rel
    ∧ s = WizdomSubtitle_init hebrew false (query_page_link is_movie id) title
                              season episode title id sid rel.
Proof.
  intros is_movie Hq Hs.
  apply query_Ok_inv in Hq as [->|Hq]; [by apply elem_of_nil in Hs|].
  destruct Hq as (id & st1 & st2 & j & results & d & _ & _ & Hget & Hiter & Hloop & ->).
  fold is_movie in Hloop.
  apply query_loop_Ok_inv in Hloop as (Hsent & kvs & Hkvs & ->).
  unfold itervalues in Hs. apply list_elem_of_fmap in Hs as ([k s'] & -> & Hin).
  apply (dict_fill_last_wins kvs) in Hin as (i & Hi & _).
  destruct (Forall2_lookup_r _ _ _ _ _ Hkvs Hi) as (r & Hri & Hr).
  apply record_candidate_Ok in Hr as (m & sid & rel & -> & Hmid & Hrel & _ & ->).
  exists id, (log DEBUG "Getting the list of subtitles" [] st1).1, st2, j, results,
    m, sid, rel.
  split_and!; try done. by eapply list_elem_of_lookup_2.
Qed.

(** C7: a candidate returned by [query] has the title argument as its
    series and as its title, the season and episode arguments as its season
    and episode, and as its imdb_id the identifier of the catalog search
    just sent; it differs from the candidate built from the arguments only
    in subtitle_id and release, which are the id and versioname of a record
    of the catalog response. *)
Theorem query_candidate_fields
    (title : string) (season episode year : option Z) (filename : string)
    (imdb_id : option string) (st st' : pstate) (subs : list WizdomSubtitle)
    (s : WizdomSubtitle) :
  let is_movie := negb (truthy season && truthy episode) in
  query title season episode year filename imdb_id st = (st', Ok subs) →
  s ∈ subs →
  sub_series s = title ∧ sub_title s = title
  ∧ sub_season s = season ∧ sub_episode s = episode
  ∧ last (sent st') = Some (catalog_request (sub_imdb_id s) season episode)
  ∧ s = WizdomSubtitle_init hebrew false
          (query_page_link is_movie (sub_imdb_id s)) title season episode title
          (sub_imdb_id s) (sub_subtitle_id s) (sub_release s)
  ∧ ∃ st1 st2 j results m,
      _get_subtitles_for_episode (sub_imdb_id s) season episode st1 = (st2, Ok j)
      ∧ py_iter j = Ok results
      ∧ JObj m ∈ results
      ∧ m !! "id" = Some (sub_subtitle_id s)
      ∧ m !! "versioname" = Some (sub_release s).
Proof.
  intros is_movie Hq Hs.
  destruct (query_candidate_built _ _ _ _ _ _ _ _ _ _ Hq Hs)
    as (id & st1 & st2 & j & results & m & sid & rel
        & Hget & Hsent & Hiter & Hin & Hmid & Hrel & ->).
  simpl. split_and!; try done.
  - rewrite Hsent.
    destruct (get_subtitles_for_episode_sent id season episode st1) as (lg & j' & Hget').
    rewrite Hget' in Hget. injection Hget as <- _. simpl. apply last_snoc.
  - by exists st1, st2, j, results, m.
Qed.

(** C10: every candidate returned by [query] is tagged with the Hebrew
    locale and is not hearing-impaired. *)
Theorem query_candidates_hebrew
    (title : string) (season episode year : option Z) (filename : string)
    (imdb_id : option string) (st st' : pstate) (subs : list WizdomSubtitle) :
  query title season episode year filename imdb_id st = (st', Ok subs) →
  Forall (λ s, sub_language s = hebrew ∧ sub_hearing_impaired s = false) subs.
Proof.
  intros Hq. apply Forall_forall. intros s Hs.
  destruct (query_candidate_built _ _ _ _ _ _ _ _ _ _ Hq Hs)
    as (id & st1 & st2 & j & results & m & sid & rel & _ & _ & _ & _ & _ & _ & ->).
  done.
Qed.

(** *** list_subtitles *)

(** C9: every subtitle returned by [list_subtitles] has a language of the
    requested set, and nothing is returned when Hebrew is not requested. *)
Theorem list_subtitles_requested_languages
    (v : video) (languages : gset Language) (st st' : pstate)
    (subs : list WizdomSubtitle) :
  list_subtitles v languages st = (st', Ok subs) →
  Forall (λ s, sub_language s ∈ languages) subs
  ∧ (hebrew ∉ languages → subs = []).
Proof.
  unfold list_subtitles. rewrite bind_run.
  destruct (query _ _ _ _ _ _ st) as [st1 [candidates|e]] eqn:Hq; [|done].
  intros [= _ <-]. split.
  - apply Forall_forall. intros s Hs. by apply list_elem_of_filter in Hs as [? _].
  - intros Hhe.
    assert (Hall : Forall (λ s, sub_language s = hebrew) candidates).
    { apply Forall_forall. intros s Hs.
      destruct (query_candidate_built _ _ _ _ _ _ _ _ _ _ Hq Hs)
        as (id & st2 & st3 & j & results & m & sid & rel
            & _ & _ & _ & _ & _ & _ & ->).
      done. }
    clear Hq. induction Hall as [|s candidates Hs _ IH]; [done|].
    rewrite filter_cons_False; [done|]. by rewrite Hs.
Qed.

(** ** Further properties *)

(** *** Matching, beyond the episode tags *)

Lemma elem_of_get_matches_movie (self : WizdomSubtitle) (m : MovieVideo) (x : string) :
  x ∈ get_matches self (Movie m) ↔
    x ∈ guess_matches (Movie m) (guessit (sub_release self) "movie")
    ∨ (x = "title" ∧ mv_title m ≠ ""
         ∧ sanitize (sub_title self) = sanitize (mv_title m)).
Proof.
  clear. unfold get_matches; simpl.
  rewrite elem_of_add_if, andb_true_iff, bool_decide_eq_true, truthy_string_ne.
  rewrite elem_of_union, elem_of_empty. tauto.
Qed.

(** X1: for a Movie video the checks on series, season, episode and
    series_imdb_id are skipped: whatever the candidate's fields, a tag other
    than 'title' is in the result exactly when the guesser, run for the
    "movie" type, contributes it. *)
Theorem get_matches_movie_only_guessed
    (self : WizdomSubtitle) (m : MovieVideo) (x : string) :
  x ≠ "title" →
  (x ∈ get_matches self (Movie m)
   ↔ x ∈ guess_matches (Movie m) (guessit (sub_release self) "movie")).
Proof.
  clear. intros Hx. rewrite elem_of_get_matches_movie. naive_solver.
Qed.

(** X2: for an Episode and for a Movie alike, 'title' is in the result
    exactly when the video has a non-empty title whose sanitized form equals
    the candidate's sanitized title, or the guesser contributes the tag; an
    Episode without a title never gets it from the check. *)
Theorem get_matches_title_tag (self : WizdomSubtitle) (v : video) :
  "title" ∈ get_matches self v ↔
    (∃ t, video_title v = Some t ∧ t ≠ ""
          ∧ sanitize (sub_title self) = sanitize t)
    ∨ "title" ∈ guess_matches v
        (guessit (sub_release self)
                 (match v with Episode _ => "episode" | Movie _ => "movie" end)).
Proof.
  clear. destruct v as [e|m]; simpl.
  - rewrite elem_of_get_matches_episode. naive_solver.
  - rewrite elem_of_get_matches_movie. naive_solver.
Qed.

(** X3: the result of [get_matches] holds every tag of the guesser, and
    nothing but the guesser's tags and the five tags of the checks. *)
Theorem get_matches_bounds (self : WizdomSubtitle) (v : video) :
  let guessed :=
    guess_matches v
      (guessit (sub_release self)
               (match v with Episode _ => "episode" | Movie _ => "movie" end)) in
  guessed ⊆ get_matches self v
  ∧ get_matches self v
    ⊆ guessed ∪ {["series"; "season"; "episode"; "series_imdb_id"; "title"]}.
Proof.
  clear. intros guessed. subst guessed. split; intros x; destruct v as [e|m].
  - rewrite elem_of_get_matches_episode. tauto.
  - rewrite elem_of_get_matches_movie. tauto.
  - rewrite elem_of_get_matches_episode.
    rewrite !elem_of_union, !elem_of_singleton. tauto.
  - rewrite elem_of_get_matches_movie.
    rewrite !elem_of_union, !elem_of_singleton. tauto.
Qed.

(** *** Identifier resolution, the other paths *)

#[local] Arguments tmdb_search_request : simpl never.
#[local] Arguments tmdb_detail_request : simpl never.
#[local] Arguments catalog_request : simpl never.
#[local] Arguments download_request : simpl never.
#[local] Arguments str_opt_int : simpl never.
#[local] Arguments py_str : simpl never.

(** Case analysis on what a run meets: every [match] and [if] in turn. *)
Ltac case_run :=
  repeat (simpl;
          match goal with
          | |- context [match ?x with _ => _ end] =>
              lazymatch x with
              | context [match _ with _ => _ end] => fail
              | _ => destruct x eqn:?
              end
          end);
  simpl.

Lemma remove_char_idemp (c : ascii) (s : string) :
  remove_char c (remove_char c s) = remove_char c s.
Proof.
  clear. induction s as [|a s IH]; [done|]. simpl.
  destruct (Ascii.eqb a c) eqn:Ha; [done|]. simpl. by rewrite Ha, IH.
Qed.

Lemma search_imdb_id_miss (title : string) (year : option Z) (is_movie : bool)
    (st : pstate) :
  region_get st title year is_movie = None →
  _search_imdb_id title year is_movie st = _search_imdb_id_body title year is_movie st.
Proof. intros H. unfold _search_imdb_id. by rewrite H. Qed.

(** X4: a call of [_search_imdb_id] either finds a value in the region,
    and returns it with nothing logged and nothing sent, or logs one INFO
    record and sends the search request, followed by at most one detail
    request, whatever the session answers and whether the call returns or
    raises. *)
Theorem search_imdb_id_requests
    (title : string) (year : option Z) (is_movie : bool) (st : pstate) :
  let category := if is_movie then "movie" else "tv" in
  let rq := tmdb_search_request category (remove_char "'" title) year in
  let st' := (_search_imdb_id title year is_movie st).1 in
  match region_get st title year is_movie with
  | Some cached => _search_imdb_id title year is_movie st = (st, Ok cached)
  | None =>
      (sent st' = sent st ++ [rq]
       ∨ ∃ tmdb_id,
           sent st' = sent st ++ [rq; tmdb_detail_request category tmdb_id is_movie])
      ∧ ∃ info, logged st' = logged st ++ [info] ∧ log_lvl info = INFO
  end.
Proof.
  intros category rq st'. subst st'. unfold _search_imdb_id.
  destruct (region_get st title year is_movie) as [cached|]; [done|].
  unfold _search_imdb_id_body. fold category. fold rq.
  run_monad. unfold session_get, raise_for_status, response_json, py_get, py_getitem_0.
  run_monad.
  split.
  - case_run; rewrite <-?app_assoc; simpl; eauto.
  - case_run; eauto.
Qed.

(** X5: when the function under [_search_imdb_id] returns an identifier it
    is a non-empty string: an empty one is turned into None. *)
Theorem search_imdb_id_nonempty
    (title : string) (year : option Z) (is_movie : bool) (st st' : pstate)
    (imdb_id : string) :
  _search_imdb_id_body title year is_movie st = (st', Ok (Some imdb_id)) →
  imdb_id ≠ "".
Proof.
  unfold _search_imdb_id_body.
  run_monad. unfold session_get, raise_for_status, response_json, py_get, py_getitem_0.
  run_monad.
  case_run; intros [= ? ?]; subst; try congruence.
  all: by apply truthy_string_ne.
Qed.

(** X6: when the function under [_search_imdb_id] runs, the search has a
    first result with a truthy id and the detail record carries a non-empty
    string imdb_id, it returns that identifier, after the search and the
    detail request. *)
Theorem search_imdb_id_found
    (title : string) (year : option Z) (is_movie : bool) (st : pstate)
    (r r' : response) (m first d : gmap string json) (others : list json)
    (tmdb_id : json) (imdb_id : string) :
  let category := if is_movie then "movie" else "tv" in
  let rq := tmdb_search_request category (remove_char "'" title) year in
  let rq' := tmdb_detail_request category tmdb_id is_movie in
  http (sent st) rq = GetReturns r →
  ¬ (400 ≤ status_code r < 600)%Z →
  json_loads (content r) = Some (JObj m) →
  m !! "results" = Some (JArr (JObj first :: others)) →
  first !! "id" = Some tmdb_id →
  truthy tmdb_id = true →
  http (sent st ++ [rq]) rq' = GetReturns r' →
  ¬ (400 ≤ status_code r' < 600)%Z →
  json_loads (content r') = Some (JObj d) →
  d !! "imdb_id" = Some (JStr imdb_id) →
  imdb_id ≠ "" →
  (_search_imdb_id_body title year is_movie st).2 = Ok (Some imdb_id)
  ∧ sent (_search_imdb_id_body title year is_movie st).1 = sent st ++ [rq; rq'].
Proof.
  intros category rq rq' Hr Hs Hj Hm Hid Ht Hr' Hs' Hj' Hd Hne.
  unfold _search_imdb_id_body. fold category. fold rq.
  run_monad.
  rewrite (session_get_returns rq r) by done.
  rewrite (raise_for_status_ret r), (response_json_ret r (JObj m)) by done.
  run_monad. rewrite Hm. simpl. rewrite Hid. simpl. rewrite Ht.
  rewrite (session_get_returns _ r') by done.
  rewrite (raise_for_status_ret r'), (response_json_ret r' (JObj d)) by done.
  run_monad. rewrite Hd. simpl. rewrite <-app_assoc.
  apply truthy_string_ne in Hne.
  change (py_str (JStr imdb_id)) with imdb_id. by rewrite Hne.
Qed.

(** X7: the function under [_search_imdb_id] catches nothing: a search
    request that raises, or an error status on the search response, ends it
    with that exception after the one request; an error status on the
    detail response ends it with HTTPError after the two requests. *)
Theorem search_imdb_id_propagates
    (title : string) (year : option Z) (is_movie : bool) (st : pstate) :
  let category := if is_movie then "movie" else "tv" in
  let rq := tmdb_search_request category (remove_char "'" title) year in
  (∀ e, http (sent st) rq = GetRaises e →
        (_search_imdb_id_body title year is_movie st).2 = Raise e
        ∧ sent (_search_imdb_id_body title year is_movie st).1 = sent st ++ [rq])
  ∧ (∀ r, http (sent st) rq = GetReturns r →
          (400 ≤ status_code r < 600)%Z →
          (_search_imdb_id_body title year is_movie st).2 = Raise (HTTPError (status_code r))
          ∧ sent (_search_imdb_id_body title year is_movie st).1 = sent st ++ [rq])
  ∧ (∀ r r' (m first : gmap string json) others tmdb_id,
       http (sent st) rq = GetReturns r →
       ¬ (400 ≤ status_code r < 600)%Z →
       json_loads (content r) = Some (JObj m) →
       m !! "results" = Some (JArr (JObj first :: others)) →
       first !! "id" = Some tmdb_id →
       truthy tmdb_id = true →
       http (sent st ++ [rq]) (tmdb_detail_request category tmdb_id is_movie)
       = GetReturns r' →
       (400 ≤ status_code r' < 600)%Z →
       (_search_imdb_id_body title year is_movie st).2 = Raise (HTTPError (status_code r'))
       ∧ sent (_search_imdb_id_body title year is_movie st).1
         = sent st ++ [rq; tmdb_detail_request category tmdb_id is_movie]).
Proof.
  intros category rq.
  unfold _search_imdb_id_body. fold category. fold rq. run_monad.
  split_and!.
  - intros e He. by rewrite (session_get_raises rq e) by done.
  - intros r Hr Hs. rewrite (session_get_returns rq r) by done.
    by rewrite raise_for_status_error by done.
  - intros r r' m first others tmdb_id Hr Hs Hj Hm Hid Ht Hr' Hs'.
    rewrite (session_get_returns rq r) by done.
    rewrite (raise_for_status_ret r), (response_json_ret r (JObj m)) by done.
    run_monad. rewrite Hm. simpl. rewrite Hid. simpl. rewrite Ht.
    rewrite (session_get_returns _ r') by done.
    rewrite raise_for_status_error by done. simpl.
    by rewrite <-app_assoc.
Qed.

(** X8: when the function under [_search_imdb_id] runs and the first
    result of the search has no id, or a falsy one (null, 0, an empty
    string), it returns None and sends no detail request. *)
Theorem search_imdb_id_no_tmdb_id
    (title : string) (year : option Z) (is_movie : bool) (st : pstate)
    (r : response) (m first : gmap string json) (others : list json) :
  let category := if is_movie then "movie" else "tv" in
  let rq := tmdb_search_request category (remove_char "'" title) year in
  http (sent st) rq = GetReturns r →
  ¬ (400 ≤ status_code r < 600)%Z →
  json_loads (content r) = Some (JObj m) →
  m !! "results" = Some (JArr (JObj first :: others)) →
  truthy (default JNull (first !! "id")) = false →
  (_search_imdb_id_body title year is_movie st).2 = Ok None
  ∧ sent (_search_imdb_id_body title year is_movie st).1 = sent st ++ [rq].
Proof.
  intros category rq Hr Hs Hj Hm Hid.
  unfold _search_imdb_id_body. fold category. fold rq.
  run_monad.
  rewrite (session_get_returns rq r) by done.
  rewrite (raise_for_status_ret r), (response_json_ret r (JObj m)) by done.
  run_monad. rewrite Hm. simpl. by rewrite Hid.
Qed.

(** X9: apostrophes in the title do not reach the metadata API: when
    the region holds a value neither for a title nor for the same title
    without its apostrophes, the two calls give the same requests and the
    same result (the log keeps the title as given). *)
Theorem search_imdb_id_apostrophes
    (title : string) (year : option Z) (is_movie : bool) (st : pstate) :
  region_get st title year is_movie = None →
  region_get st (remove_char "'" title) year is_movie = None →
  (_search_imdb_id title year is_movie st).2
  = (_search_imdb_id (remove_char "'" title) year is_movie st).2
  ∧ sent (_search_imdb_id title year is_movie st).1
    = sent (_search_imdb_id (remove_char "'" title) year is_movie st).1.
Proof.
  intros Hmiss Hmiss'. rewrite !search_imdb_id_miss by done.
  unfold _search_imdb_id_body. rewrite remove_char_idemp.
  run_monad. unfold session_get, raise_for_status, response_json, py_get, py_getitem_0.
  run_monad.
  split; case_run; reflexivity.
Qed.

(** C6, where the code departs from it: with nothing in the region, a
    first result with a truthy id, and a detail record whose imdb_id is
    present and null, [_search_imdb_id] returns the text 'None' and not
    None ([str(None)] is a non-empty string). *)
Theorem search_imdb_id_null_imdb_id
    (title : string) (year : option Z) (is_movie : bool) (st : pstate)
    (r r' : response) (m first d : gmap string json) (others : list json)
    (tmdb_id : json) :
  let category := if is_movie then "movie" else "tv" in
  let rq := tmdb_search_request category (remove_char "'" title) year in
  let rq' := tmdb_detail_request category tmdb_id is_movie in
  region_get st title year is_movie = None →
  http (sent st) rq = GetReturns r →
  ¬ (400 ≤ status_code r < 600)%Z →
  json_loads (content r) = Some (JObj m) →
  m !! "results" = Some (JArr (JObj first :: others)) →
  first !! "id" = Some tmdb_id →
  truthy tmdb_id = true →
  http (sent st ++ [rq]) rq' = GetReturns r' →
  ¬ (400 ≤ status_code r' < 600)%Z →
  json_loads (content r') = Some (JObj d) →
  d !! "imdb_id" = Some JNull →
  (_search_imdb_id title year is_movie st).2 = Ok (Some "None")
  ∧ sent (_search_imdb_id title year is_movie st).1 = sent st ++ [rq; rq'].
Proof.
  intros category rq rq' Hmiss Hr Hs Hj Hm Hid Ht Hr' Hs' Hj' Hd.
  rewrite search_imdb_id_miss by done.
  unfold _search_imdb_id_body. fold category. fold rq.
  run_monad.
  rewrite (session_get_returns rq r) by done.
  rewrite (raise_for_status_ret r), (response_json_ret r (JObj m)) by done.
  run_monad. rewrite Hm. simpl. rewrite Hid. simpl. rewrite Ht.
  rewrite (session_get_returns _ r') by done.
  rewrite (raise_for_status_ret r'), (response_json_ret r' (JObj d)) by done.
  run_monad. rewrite Hd. simpl. by rewrite <-app_assoc.
Qed.

(** *** Catalog search and query, the other paths *)

(** X10: [_get_subtitles_for_episode] never raises: whatever the session
    does it sends the one catalog request and returns, either the empty
    list or the document decoded from the body of the response. *)
Theorem get_subtitles_for_episode_returns
    (imdb_id : string) (season episode : option Z) (st : pstate) :
  let rq := catalog_request imdb_id season episode in
  ∃ j, (_get_subtitles_for_episode imdb_id season episode st).2 = Ok j
       ∧ sent (_get_subtitles_for_episode imdb_id season episode st).1 = sent st ++ [rq]
       ∧ (j = JArr []
          ∨ ∃ r, http (sent st) rq = GetReturns r ∧ json_loads (content r) = Some j).
Proof.
  intros rq. unfold _get_subtitles_for_episode. fold rq. run_monad.
  unfold session_get. simpl.
  destruct (http (sent st) rq) as [e|r] eqn:Hr; simpl; [by eauto|].
  unfold raise_for_status. destruct (_ && _); run_monad; [by eauto|].
  unfold response_json. destruct (json_loads (content r)) as [j|] eqn:Hj; run_monad;
    [|by eauto].
  exists j. split_and!; [done|done|]. right. by exists r.
Qed.

(** The loop of [query] sends nothing. *)
Lemma query_loop_sent (page_link title : string) (season episode : option Z)
    (imdb_id : string) (results : list json) :
  ∀ (d : pydict WizdomSubtitle) (st : pstate),
    sent (query_loop page_link title season episode imdb_id results d st).1 = sent st.
Proof.
  clear. induction results as [|r results IH]; intros d st; [done|].
  destruct (record_candidate page_link title season episode imdb_id r)
    as [[k subtitle]|e] eqn:Hr.
  - rewrite (query_loop_cons_Ok _ _ _ _ _ _ _ _ _ k subtitle) by done.
    by rewrite IH.
  - revert Hr. cbn [query_loop]. unfold record_candidate, dict_setitem. run_monad.
    destruct (py_getitem_str r "id") as [sid|]; simpl; [|done].
    destruct (py_getitem_str r "versioname") as [rel|]; simpl; [|done].
    by destruct (py_hash_key sid).
Qed.

Lemma query_supplied_id_sent
    (title : string) (season episode year : option Z) (filename : string)
    (id : string) (st : pstate) :
  id ≠ "" →
  sent (query title season episode year filename (Some id) st).1
  = sent st ++ [catalog_request id season episode].
Proof.
  intros Hid. apply truthy_string_ne in Hid. unfold query.
  change (truthy (Some id)) with (truthy id). rewrite Hid.
  rewrite bind_run. simpl. rewrite Hid. simpl.
  rewrite bind_run. simpl. rewrite bind_run.
  destruct (get_subtitles_for_episode_sent id season episode
              {| sent := sent st;
                 logged := logged st
                   ++ [mkLog DEBUG "Getting the list of subtitles" []] |})
    as (lg & j & Hrun).
  rewrite Hrun, bind_run. unfold lift_result at 1.
  destruct (py_iter j) as [results|e]; [|done].
  rewrite bind_run.
  pose proof (query_loop_sent
                (query_page_link (negb (truthy season && truthy episode)) id)
                title season episode id results []
                {| sent := sent st ++ [catalog_request id season episode];
                   logged := lg |}) as Hsent.
  destruct (query_loop _ _ _ _ _ results [] _) as [st3 [d|e]]; exact Hsent.
Qed.

(** X11: when the caller supplies a truthy identifier, [query] sends the
    catalog request for it and nothing else (no metadata search), whether it
    returns or raises. *)
Theorem query_supplied_id_one_request
    (title : string) (season episode year : option Z) (filename : string)
    (id : string) (st : pstate) :
  id ≠ "" →
  sent (query title season episode year filename (Some id) st).1
  = sent st ++ [catalog_request id season episode].
Proof. apply query_supplied_id_sent. Qed.

(** X12: when no identifier is supplied and the metadata search finds
    none, [query] returns the empty list in the state the search left: the
    catalog is not contacted. *)
Theorem query_no_identifier
    (title : string) (season episode year : option Z) (filename : string)
    (imdb_id : option string) (st st1 : pstate) :
  truthy imdb_id = false →
  _search_imdb_id title year (negb (truthy season && truthy episode)) st
  = (st1, Ok None) →
  query title season episode year filename imdb_id st = (st1, Ok []).
Proof.
  intros Hid Hsearch. unfold query. rewrite Hid, bind_run, Hsearch. done.
Qed.

(** X13: once the identifier is known, a failing catalog search (the
    request raises, the status is an error, the body is not JSON) makes
    [query] return the empty list, not raise. *)
Theorem query_catalog_failure
    (title : string) (season episode year : option Z) (filename : string)
    (imdb_id : option string) (st st1 : pstate) (id : string) :
  let is_movie := negb (truthy season && truthy episode) in
  let rq := catalog_request id season episode in
  (if truthy imdb_id then mret imdb_id
   else _search_imdb_id title year is_movie) st = (st1, Ok (Some id)) →
  id ≠ "" →
  (∃ e, http (sent st1) rq = GetRaises e)
  ∨ (∃ r, http (sent st1) rq = GetReturns r
          ∧ ((400 ≤ status_code r < 600)%Z ∨ json_loads (content r) = None)) →
  (query title season episode year filename imdb_id st).2 = Ok []
  ∧ sent (query title season episode year filename imdb_id st).1 = sent st1 ++ [rq].
Proof.
  intros is_movie rq Hres Hid Hfail. apply truthy_string_ne in Hid.
  unfold query. fold is_movie. rewrite bind_run, Hres. rewrite Hid. simpl.
  rewrite bind_run. simpl. rewrite bind_run.
  assert (Hget : ∀ lg,
    ∃ lg', _get_subtitles_for_episode id season episode
             {| sent := sent st1; logged := lg |}
           = ({| sent := sent st1 ++ [rq]; logged := lg' |}, Ok (JArr []))).
  { intros lg. unfold _get_subtitles_for_episode. fold rq. run_monad.
    unfold session_get. simpl.
    destruct Hfail as [[e He]|(r & Hr & Hbad)]; [rewrite He; by eauto|].
    rewrite Hr. simpl.
    destruct (decide (400 ≤ status_code r < 600)%Z) as [Hs|Hs].
    - rewrite raise_for_status_error by done. by eauto.
    - destruct Hbad as [?|Hj]; [done|].
      rewrite raise_for_status_ret, (response_json_raise r) by done. by eauto. }
  destruct (Hget (logged st1 ++ [mkLog DEBUG "Getting the list of subtitles" []]))
    as [lg' Hrun].
  by rewrite Hrun.
Qed.

(** A record the loop cannot use ends it with that record's exception,
    however many usable records precede it. *)
Lemma query_loop_app_Raise (page_link title : string) (season episode : option Z)
    (imdb_id : string) (good : list json) (bad : json) (rest : list json) (e : exn) :
  Forall (λ r, ∃ kv, record_candidate page_link title season episode imdb_id r = Ok kv)
         good →
  record_candidate page_link title season episode imdb_id bad = Raise e →
  ∀ (d : pydict WizdomSubtitle) (st : pstate),
    (query_loop page_link title season episode imdb_id (good ++ bad :: rest) d st).2
    = Raise e.
Proof.
  clear. intros Hgood Hbad. induction Hgood as [|r good [[k subtitle] Hr] _ IH];
    intros d st; simpl app.
  - by destruct (query_loop_cons_Raise _ _ _ _ _ _ rest d st _ Hbad) as [st' ->].
  - rewrite (query_loop_cons_Ok _ _ _ _ _ _ _ _ _ k subtitle) by done. apply IH.
Qed.

(** X14: one unusable record makes [query] raise, whatever the usable
    records before it: KeyError when the record is an object without 'id',
    or with 'id' and without 'versioname'; TypeError when it is not an
    object, or when its id is a list or an object. *)
Theorem query_malformed_record
    (title : string) (season episode year : option Z) (filename : string)
    (imdb_id : option string) (st st1 st2 : pstate) (id : string)
    (good : list json) (bad : json) (rest : list json) :
  let is_movie := negb (truthy season && truthy episode) in
  (if truthy imdb_id then mret imdb_id
   else _search_imdb_id title year is_movie) st = (st1, Ok (Some id)) →
  id ≠ "" →
  _get_subtitles_for_episode id season episode
    (log DEBUG "Getting the list of subtitles" [] st1).1
  = (st2, Ok (JArr (good ++ bad :: rest))) →
  Forall (λ r, ∃ m sid rel k,
            r = JObj m ∧ m !! "id" = Some sid ∧ m !! "versioname" = Some rel
            ∧ py_hash_key sid = Ok k) good →
  let outcome := (query title season episode year filename imdb_id st).2 in
  (∀ m, bad = JObj m →
        m !! "id" = None ∨ m !! "versioname" = None →
        outcome = Raise KeyError)
  ∧ ((∀ m, bad ≠ JObj m) → outcome = Raise TypeError)
  ∧ (∀ m sid rel, bad = JObj m →
        m !! "id" = Some sid → m !! "versioname" = Some rel →
        (∃ l, sid = JArr l) ∨ (∃ o, sid = JObj o) →
        outcome = Raise TypeError).
Proof.
  intros is_movie Hres Hid Hget Hgood outcome. subst outcome.
  rewrite (query_run _ _ _ _ _ _ _ st1 st2 id (good ++ bad :: rest)) by done.
  fold is_movie. set (pl := query_page_link is_movie id).
  assert (Hgood' : Forall (λ r, ∃ kv, record_candidate pl title season episode id r
                                      = Ok kv) good).
  { eapply Forall_impl; [exact Hgood|]. intros r (m & sid & rel & k & ? & ? & ? & ?).
    eexists (k, _). apply record_candidate_Ok. by exists m, sid, rel. }
  assert (Hraise : ∀ e, record_candidate pl title season episode id bad = Raise e →
            (match query_loop pl title season episode id (good ++ bad :: rest) [] st2 with
             | (st3, Ok d) => (st3, Ok (itervalues d))
             | (st3, Raise e) => (st3, Raise e)
             end).2 = Raise e).
  { intros e He.
    pose proof (query_loop_app_Raise pl title season episode id good bad rest e
                  Hgood' He [] st2) as Hloop.
    destruct (query_loop _ _ _ _ _ (good ++ bad :: rest) [] st2) as [st3 [d|e']];
      simpl in *; congruence. }
  split_and!.
  - intros m -> Hmiss. apply Hraise. unfold record_candidate. simpl.
    destruct Hmiss as [Hnoid|Hnorel]; [by rewrite Hnoid|].
    destruct (m !! "id") as [sid|]; simpl; [by rewrite Hnorel|done].
  - intros Hno. apply Hraise. unfold record_candidate.
    destruct bad as [| | | | |m]; try done. by destruct (Hno m).
  - intros m sid rel -> Hsid Hrel Hunhashable. apply Hraise.
    unfold record_candidate. simpl. rewrite Hsid. simpl. rewrite Hrel. simpl.
    by destruct Hunhashable as [[l ->]|[o ->]].
Qed.

(** The keys of a dict filled from the empty dict come in the order in
    which they were first stored. *)
Lemma dict_fill_keys {V} (kvs : list (pykey * V)) :
  (foldl (λ d kv, dict_store d kv.1 kv.2) [] kvs).*1
  = reverse (remove_dups (reverse kvs.*1)).
Proof.
  clear. induction kvs as [|[k v] kvs IH] using rev_ind; [done|].
  rewrite foldl_snoc, dict_store_keys, IH. simpl.
  rewrite fmap_app, reverse_app. simpl.
  destruct (decide_rel elem_of k (reverse kvs.*1)) as [Hin|Hin].
  - rewrite decide_True; [done|].
    by rewrite elem_of_reverse, elem_of_remove_dups.
  - rewrite decide_False, reverse_cons; [done|].
    by rewrite elem_of_reverse, elem_of_remove_dups.
Qed.

(** X15: the candidates [query] returns come in the order in which their
    ids first appear in the catalog response, one per id: their ids, as
    dict keys, are the ids of the records with all but the first occurrence
    of each struck out. *)
Theorem query_order_first_seen
    (title : string) (season episode year : option Z) (filename : string)
    (imdb_id : option string) (st st1 st2 : pstate) (id : string)
    (records : list json) :
  let is_movie := negb (truthy season && truthy episode) in
  (if truthy imdb_id then mret imdb_id
   else _search_imdb_id title year is_movie) st = (st1, Ok (Some id)) →
  id ≠ "" →
  _get_subtitles_for_episode id season episode
    (log DEBUG "Getting the list of subtitles" [] st1).1 = (st2, Ok (JArr records)) →
  Forall (λ r, ∃ m sid rel k,
            r = JObj m ∧ m !! "id" = Some sid ∧ m !! "versioname" = Some rel
            ∧ py_hash_key sid = Ok k) records →
  ∃ subs ks,
    (query title season episode year filename imdb_id st).2 = Ok subs
    ∧ Forall2 (λ r k, ∃ m sid, r = JObj m ∧ m !! "id" = Some sid
                               ∧ py_hash_key sid = Ok k) records ks
    ∧ (λ s, py_hash_key (sub_subtitle_id s)) <$> subs
      = Ok <$> reverse (remove_dups (reverse ks))
    ∧ length subs ≤ length records.
Proof.
  intros is_movie Hres Hid Hget Hwf.
  rewrite (query_run _ _ _ _ _ _ _ st1 st2 id records) by done. fold is_movie.
  set (pl := query_page_link is_movie id).
  destruct (query_loop_total pl title season episode id records)
    with (d := @nil (pykey * WizdomSubtitle)) (st := st2) as (st3 & d & Hloop).
  { eapply Forall_impl; [exact Hwf|]. intros r (m & sid & rel & k & ? & ? & ? & ?).
    eexists (k, _). apply record_candidate_Ok. by exists m, sid, rel. }
  rewrite Hloop. simpl.
  apply query_loop_Ok_inv in Hloop as (_ & kvs & Hkvs & ->).
  exists (itervalues (foldl (λ d kv, dict_store d kv.1 kv.2) [] kvs)), kvs.*1.
  split_and!; [done| | |].
  - clear -Hkvs. induction Hkvs as [|r [k s] records kvs Hr _ IH]; [constructor|].
    rewrite fmap_cons. constructor; [|done].
    apply record_candidate_Ok in Hr as (m & sid & rel & -> & ? & _ & ? & _).
    by exists m, sid.
  - rewrite <-dict_fill_keys.
    destruct (dict_fill_last_wins kvs) as [_ Hmem].
    set (d := foldl (λ d kv, dict_store d kv.1 kv.2) [] kvs) in *.
    assert (Hkey : Forall (λ ks, py_hash_key (sub_subtitle_id ks.2) = Ok ks.1) d).
    { apply Forall_forall. intros [k s] (i & Hi & _)%Hmem.
      destruct (Forall2_lookup_r _ _ _ _ _ Hkvs Hi) as (r & _ & Hr).
      by apply record_candidate_Ok in Hr as (m & sid & rel & _ & _ & _ & Hk & ->). }
    unfold itervalues. clear -Hkey.
    induction Hkey as [|[k s] d Hk _ IH]; [done|].
    rewrite !fmap_cons. simpl in *. by rewrite Hk, IH.
  - unfold itervalues. rewrite length_fmap.
    rewrite <-(length_fmap fst), dict_fill_keys, length_reverse.
    rewrite (Forall2_length _ _ _ Hkvs), <-(length_fmap fst kvs).
    rewrite <-(length_reverse kvs.*1).
    generalize (reverse kvs.*1). clear. intros l.
    induction l as [|x l IH]; simpl; [done|]. case_decide; simpl; lia.
Qed.

(** *** list_subtitles *)

(** Like [query_candidate_built], with the origin of the identifier. *)
Lemma query_candidate_resolved (title : string) (season episode year : option Z)
    (filename : string) (imdb_id : option string) (st st' : pstate)
    (subs : list WizdomSubtitle) (s : WizdomSubtitle) :
  let is_movie := negb (truthy season && truthy episode) in
  query title season episode year filename imdb_id st = (st', Ok subs) →
  s ∈ subs →
  ∃ id sid rel,
    (truthy imdb_id = true → imdb_id = Some id)
    ∧ s = WizdomSubtitle_init hebrew false (query_page_link is_movie id) title
                              season episode title id sid rel.
Proof.
  intros is_movie Hq Hs.
  apply query_Ok_inv in Hq as [->|Hq]; [by apply elem_of_nil in Hs|].
  destruct Hq as (id & st1 & st2 & j & results & d & _ & Hres & _ & _ & Hloop & ->).
  fold is_movie in Hloop.
  apply query_loop_Ok_inv in Hloop as (_ & kvs & Hkvs & ->).
  unfold itervalues in Hs. apply list_elem_of_fmap in Hs as ([k s'] & -> & Hin).
  apply (dict_fill_last_wins kvs) in Hin as (i & Hi & _).
  destruct (Forall2_lookup_r _ _ _ _ _ Hkvs Hi) as (r & _ & Hr).
  apply record_candidate_Ok in Hr as (m & sid & rel & _ & _ & _ & _ & ->).
  exists id, sid, rel. split; [|done].
  intros Ht. rewrite Ht in Hres. by injection Hres as _ ->.
Qed.

(** X16: every candidate [list_subtitles] returns for an Episode matches
    that Episode on what the query was made with: 'series', 'season' and
    'episode' are among its matches whenever the video's field is truthy,
    and 'series_imdb_id' whenever the video has a series_imdb_id, whatever
    the catalog answered. *)
Theorem list_subtitles_candidates_match
    (e : EpisodeVideo) (languages : gset Language) (st st' : pstate)
    (subs : list WizdomSubtitle) (s : WizdomSubtitle) :
  list_subtitles (Episode e) languages st = (st', Ok subs) →
  s ∈ subs →
  (ep_series e ≠ "" → "series" ∈ get_matches s (Episode e))
  ∧ (ep_season e ≠ 0%Z → "season" ∈ get_matches s (Episode e))
  ∧ (ep_episode e ≠ 0%Z → "episode" ∈ get_matches s (Episode e))
  ∧ (truthy (ep_series_imdb_id e) = true →
     "series_imdb_id" ∈ get_matches s (Episode e)).
Proof.
  unfold list_subtitles. rewrite bind_run.
  destruct (query _ _ _ _ _ _ st) as [st1 [candidates|err]] eqn:Hq; [|done].
  intros [= _ <-] [_ Hs]%list_elem_of_filter.
  destruct (query_candidate_resolved _ _ _ _ _ _ _ _ _ _ Hq Hs)
    as (id & sid & rel & Hid & ->).
  rewrite !elem_of_get_matches_episode. simpl.
  split_and!; intros Hv.
  - by left.
  - right. by left.
  - right. right. by left.
  - right. right. right. left. split; [done|].
    specialize (Hid Hv). rewrite Hid in Hv |- *. split; [|done].
    by apply truthy_string_ne.
Qed.

(** X17: when Hebrew is among the requested languages [list_subtitles] is
    [query] on the fields of the video: series, season, episode and
    series_imdb_id for an Episode; title and imdb_id, without season and
    episode, for a Movie. *)
Theorem list_subtitles_hebrew_requested
    (v : video) (languages : gset Language) (st : pstate) :
  hebrew ∈ languages →
  list_subtitles v languages st
  = match v with
    | Episode e =>
        query (ep_series e) (Some (ep_season e)) (Some (ep_episode e)) (ep_year e)
              (ep_name e) (ep_series_imdb_id e) st
    | Movie m =>
        query (mv_title m) None None (mv_year m) (mv_name m) (mv_imdb_id m) st
    end.
Proof.
  intros Hhe.
  assert (Hfilter : ∀ title season episode year filename imdb_id,
    (query title season episode year filename imdb_id
       ≫= λ subtitles, mret (filter (λ s, sub_language s ∈ languages) subtitles)) st
    = query title season episode year filename imdb_id st).
  { intros. rewrite bind_run.
    destruct (query _ _ _ _ _ _ st) as [st1 [candidates|err]] eqn:Hq; [|done].
    unfold mret, M_mret, M_ret. do 2 f_equal.
    assert (Hall : Forall (λ s, sub_language s = hebrew) candidates).
    { apply Forall_forall. intros s Hs.
      by destruct (query_candidate_resolved _ _ _ _ _ _ _ _ _ _ Hq Hs)
        as (id & sid & rel & _ & ->). }
    clear Hq. induction Hall as [|s candidates Hs _ IH]; [done|].
    rewrite filter_cons_True by (by rewrite Hs). by rewrite IH. }
  destruct v as [e|m]; apply Hfilter.
Qed.

(** X18: for a Movie with an identifier [list_subtitles] sends one request,
    the catalog search by id, in which season and episode are both the text
    None. *)
Theorem list_subtitles_movie_request
    (m : MovieVideo) (languages : gset Language) (st : pstate) (id : string) :
  mv_imdb_id m = Some id →
  id ≠ "" →
  sent (list_subtitles (Movie m) languages st).1
  = sent st
    ++ [{| req_url := "https://wizdom.xyz/api/search?action=by_id&imdb=" +:+ id
                        +:+ "&season=None&episode=None";
           req_headers := [];
           req_timeout := None |}].
Proof.
  intros Hm Hid. unfold list_subtitles. rewrite bind_run. simpl. rewrite Hm.
  pose proof (query_supplied_id_sent (mv_title m) None None (mv_year m) (mv_name m)
                id st Hid) as Hsent.
  destruct (query _ _ _ _ _ _ st) as [st1 [candidates|err]]; exact Hsent.
Qed.

Lemma search_imdb_id_sent_prefix
    (title : string) (year : option Z) (is_movie : bool) (st : pstate) :
  ∃ extra,
    sent (_search_imdb_id_body title year is_movie st).1
    = sent st
      ++ tmdb_search_request (if is_movie then "movie" else "tv")
           (remove_char "'" title) year :: extra.
Proof.
  unfold _search_imdb_id_body.
  run_monad. unfold session_get, raise_for_status, response_json, py_get, py_getitem_0.
  run_monad.
  case_run; rewrite <-?app_assoc; simpl; eauto.
Qed.

Lemma query_sent_after_search
    (title : string) (season episode year : option Z) (filename : string)
    (imdb_id : option string) (st : pstate) :
  truthy imdb_id = false →
  ∃ rest,
    sent (query title season episode year filename imdb_id st).1
    = sent (_search_imdb_id title year (negb (truthy season && truthy episode)) st).1
      ++ rest.
Proof.
  intros Hid. unfold query. rewrite Hid, bind_run.
  destruct (_search_imdb_id title year _ st) as [st1 [[id|]|e]];
    [|by exists []; rewrite app_nil_r..].
  destruct (truthy id); simpl; [|by exists []; rewrite app_nil_r].
  rewrite bind_run. simpl. rewrite bind_run.
  destruct (get_subtitles_for_episode_sent id season episode
              {| sent := sent st1;
                 logged := logged st1
                   ++ [mkLog DEBUG "Getting the list of subtitles" []] |})
    as (lg & j & Hrun).
  rewrite Hrun, bind_run. unfold lift_result at 1.
  destruct (py_iter j) as [results|e]; [|by eexists].
  rewrite bind_run.
  pose proof (query_loop_sent
                (query_page_link (negb (truthy season && truthy episode)) id)
                title season episode id results []
                {| sent := sent st1 ++ [catalog_request id season episode];
                   logged := lg |}) as Hsent.
  destruct (query_loop _ _ _ _ _ results [] _) as [st3 [d|e]]; by eexists.
Qed.

(** X19: an Episode whose season or episode number is 0 is handled as a
    movie: without a series_imdb_id, and with no value in the region for
    the call, the identifier is searched in the "movie" category; and the
    page link of every candidate returned is under /movies/. *)
Theorem list_subtitles_special_as_movie
    (e : EpisodeVideo) (languages : gset Language) (st : pstate) :
  ep_season e = 0%Z ∨ ep_episode e = 0%Z →
  (truthy (ep_series_imdb_id e) = false →
   region_get st (ep_series e) (ep_year e) true = None →
   ∃ rest,
     sent (list_subtitles (Episode e) languages st).1
     = sent st
       ++ tmdb_search_request "movie" (remove_char "'" (ep_series e)) (ep_year e)
       :: rest)
  ∧ (∀ st' subs s,
       list_subtitles (Episode e) languages st = (st', Ok subs) →
       s ∈ subs →
       sub_page_link s = "https://wizdom.xyz/#/movies/" +:+ sub_imdb_id s).
Proof.
  intros Hzero.
  assert (His : negb (truthy (Some (ep_season e)) && truthy (Some (ep_episode e)))
                = true).
  { by destruct Hzero as [-> | ->]; [|rewrite andb_comm]. }
  unfold list_subtitles. split.
  - intros Hid Hmiss. rewrite bind_run. simpl.
    destruct (query_sent_after_search (ep_series e) (Some (ep_season e))
                (Some (ep_episode e)) (ep_year e) (ep_name e) (ep_series_imdb_id e)
                st Hid) as [rest Hrest].
    rewrite His, search_imdb_id_miss in Hrest by done.
    destruct (search_imdb_id_sent_prefix (ep_series e) (ep_year e) true st)
      as [extra Hextra].
    rewrite Hextra in Hrest. exists (extra ++ rest).
    destruct (query _ _ _ _ _ _ st) as [st1 [candidates|err]]; simpl in *;
      by rewrite Hrest, <-app_assoc.
  - intros st' subs s. rewrite bind_run.
    destruct (query _ _ _ _ _ _ st) as [st1 [candidates|err]] eqn:Hq; [|done].
    intros [= _ <-] [_ Hs]%list_elem_of_filter.
    destruct (query_candidate_resolved _ _ _ _ _ _ _ _ _ _ Hq Hs)
      as (id & sid & rel & _ & ->).
    simpl. by rewrite His.
Qed.

(** *** Download, the other paths *)

(** X20: in every run [download_subtitle] sends the one download request
    and logs nothing; when it raises the subtitle object is as it was, and
    when it returns nothing but the content has changed. *)
Theorem download_subtitle_effects (subtitle : WizdomSubtitle) (st : pstate) :
  (download_subtitle subtitle st).1.1
  = {| sent := sent st ++ [download_request subtitle]; logged := logged st |}
  ∧ match (download_subtitle subtitle st).2 with
    | Ok _ => ∃ data, (download_subtitle subtitle st).1.2 = set_content subtitle data
    | Raise _ => (download_subtitle subtitle st).1.2 = subtitle
    end.
Proof.
  unfold download_subtitle, download_subtitle_body. run_monad.
  unfold session_get. simpl.
  destruct (http (sent st) (download_request subtitle)) as [e|r]; simpl; [done|].
  unfold raise_for_status. destruct (_ && _); run_monad; [done|].
  unfold open_zip. destruct (ZipFile (content r)) as [zf|]; run_monad; [|done].
  case_bool_decide; run_monad; [done|].
  destruct (list_getitem_0 (subtitle_names zf)) as [name|e]; simpl; [|done].
  destruct (zf_read zf name) as [data|e]; simpl; [|done].
  split; [done|]. by eexists.
Qed.

(** X21: [download_subtitle] returns in one case only: the response
    had no error status, its body was an archive with exactly one entry
    whose extension is .srt or .sub; the content field of the subtitle is
    then that entry's bytes passed through [fix_line_ending], and its other
    fields are as they were. *)
Theorem download_subtitle_returns_inv
    (subtitle subtitle' : WizdomSubtitle) (st st' : pstate) :
  download_subtitle subtitle st = (st', subtitle', Ok tt) →
  ∃ r zf name data,
    http (sent st) (download_request subtitle) = GetReturns r
    ∧ ¬ (400 ≤ status_code r < 600)%Z
    ∧ ZipFile (content r) = Some zf
    ∧ subtitle_entries zf = [(name, data)]
    ∧ sub_content subtitle' = Some (fix_line_ending data)
    ∧ subtitle'
      = {| sub_language := sub_language subtitle;
           sub_hearing_impaired := sub_hearing_impaired subtitle;
           sub_page_link := sub_page_link subtitle;
           sub_series := sub_series subtitle;
           sub_season := sub_season subtitle;
           sub_episode := sub_episode subtitle;
           sub_title := sub_title subtitle;
           sub_imdb_id := sub_imdb_id subtitle;
           sub_subtitle_id := sub_subtitle_id subtitle;
           sub_downloaded := sub_downloaded subtitle;
           sub_release := sub_release subtitle;
           sub_content := Some (fix_line_ending data) |}.
Proof.
  unfold download_subtitle, download_subtitle_body. run_monad.
  unfold session_get. simpl.
  destruct (http (sent st) (download_request subtitle)) as [e|r] eqn:Hr; simpl;
    [done|].
  destruct (decide (400 ≤ status_code r < 600)%Z) as [Hs|Hs].
  { by rewrite raise_for_status_error by done. }
  rewrite raise_for_status_ret by done. run_monad.
  unfold open_zip. destruct (ZipFile (content r)) as [zf|] eqn:Hz; run_monad; [|done].
  case_bool_decide as Hlen; run_monad; [done|].
  rewrite subtitle_names_entries in *.
  destruct (subtitle_entries zf) as [|[name data] [|more]] eqn:Hent; simpl in *;
    [done| |lia].
  rewrite (zf_read_only_entry zf name data Hent). simpl.
  intros [= _ <-]. by exists r, zf, name, data.
Qed.

(** X22: [download_subtitle] catches nothing: a request that raises, an
    error status, or a body that is no archive end it with that exception
    (HTTPError, BadZipFile), the subtitle object untouched. *)
Theorem download_subtitle_propagates (subtitle : WizdomSubtitle) (st : pstate) :
  let rq := download_request subtitle in
  let st' := {| sent := sent st ++ [rq]; logged := logged st |} in
  (∀ e, http (sent st) rq = GetRaises e →
        download_subtitle subtitle st = (st', subtitle, Raise e))
  ∧ (∀ r, http (sent st) rq = GetReturns r →
          (400 ≤ status_code r < 600)%Z →
          download_subtitle subtitle st
          = (st', subtitle, Raise (HTTPError (status_code r))))
  ∧ (∀ r, http (sent st) rq = GetReturns r →
          ¬ (400 ≤ status_code r < 600)%Z →
          ZipFile (content r) = None →
          download_subtitle subtitle st = (st', subtitle, Raise BadZipFile)).
Proof.
  intros rq st'. subst rq st'.
  unfold download_subtitle, download_subtitle_body. run_monad.
  split_and!.
  - intros e He. by rewrite (session_get_raises _ e) by done.
  - intros r Hr Hs. rewrite (session_get_returns _ r) by done.
    by rewrite raise_for_status_error by done.
  - intros r Hr Hs Hz. rewrite (session_get_returns _ r) by done.
    rewrite raise_for_status_ret by done. unfold open_zip. by rewrite Hz.
Qed.

(** *** The id of a candidate *)

(** Candidates at different places of a list [query] returned have ids
    that differ as dict keys. *)
Lemma query_keys_distinct (title : string) (season episode year : option Z)
    (filename : string) (imdb_id : option string) (st st' : pstate)
    (subs : list WizdomSubtitle) (i j : nat) (s1 s2 : WizdomSubtitle) :
  query title season episode year filename imdb_id st = (st', Ok subs) →
  subs !! i = Some s1 → subs !! j = Some s2 → i ≠ j →
  ∃ k1 k2, py_hash_key (sub_subtitle_id s1) = Ok k1
           ∧ py_hash_key (sub_subtitle_id s2) = Ok k2 ∧ k1 ≠ k2.
Proof.
  intros Hq Hi Hj Hij.
  apply query_Ok_inv in Hq as [->|Hq]; [by rewrite lookup_nil in Hi|].
  destruct Hq as (id & st1 & st2 & js & results & d & _ & _ & _ & _ & Hloop & ->).
  apply query_loop_Ok_inv in Hloop as (_ & kvs & Hkvs & ->).
  destruct (dict_fill_last_wins kvs) as [Hnodup Hmem].
  set (d := foldl (λ d kv, dict_store d kv.1 kv.2) [] kvs) in *.
  assert (Hkey : ∀ k s, (k, s) ∈ d → py_hash_key (sub_subtitle_id s) = Ok k).
  { intros k s (n & Hn & _)%Hmem.
    destruct (Forall2_lookup_r _ _ _ _ _ Hkvs Hn) as (r & _ & Hr).
    by apply record_candidate_Ok in Hr as (m & sid & rel & _ & _ & _ & Hk & ->). }
  unfold itervalues in Hi, Hj. rewrite list_lookup_fmap in Hi, Hj.
  apply fmap_Some in Hi as ([k1 s1'] & Hi & ->).
  apply fmap_Some in Hj as ([k2 s2'] & Hj & ->). simpl.
  exists k1, k2. split_and!.
  - eapply Hkey, list_elem_of_lookup_2, Hi.
  - eapply Hkey, list_elem_of_lookup_2, Hj.
  - intros ->. apply Hij.
    apply (NoDup_lookup _ i j k2 Hnodup); rewrite list_lookup_fmap.
    + by rewrite Hi.
    + by rewrite Hj.
Qed.

(** X23: two candidates of one list returned by [query] whose subtitle_ids
    are both integers, or both strings, have different [id]s, and so
    different download requests. *)
Theorem query_ids_distinct
    (title : string) (season episode year : option Z) (filename : string)
    (imdb_id : option string) (st st' : pstate) (subs : list WizdomSubtitle)
    (i j : nat) (s1 s2 : WizdomSubtitle) :
  query title season episode year filename imdb_id st = (st', Ok subs) →
  subs !! i = Some s1 → subs !! j = Some s2 → i ≠ j →
  (∃ n1 n2, sub_subtitle_id s1 = JInt n1 ∧ sub_subtitle_id s2 = JInt n2)
  ∨ (∃ t1 t2, sub_subtitle_id s1 = JStr t1 ∧ sub_subtitle_id s2 = JStr t2) →
  WizdomSubtitle_id s1 ≠ WizdomSubtitle_id s2
  ∧ download_request s1 ≠ download_request s2.
Proof.
  intros Hq Hi Hj Hij Hkind.
  destruct (query_keys_distinct _ _ _ _ _ _ _ _ _ _ _ _ _ Hq Hi Hj Hij)
    as (k1 & k2 & Hk1 & Hk2 & Hne).
  assert (Hid : WizdomSubtitle_id s1 ≠ WizdomSubtitle_id s2).
  { unfold WizdomSubtitle_id.
    destruct Hkind as [(n1 & n2 & E1 & E2)|(t1 & t2 & E1 & E2)];
      rewrite E1, E2 in *; simpl in *; injection Hk1 as <-; injection Hk2 as <-.
    - unfold py_str, str_int. intros Heq. apply Hne. f_equal.
      by apply (inj pretty).
    - unfold py_str. congruence. }
  split; [done|].
  unfold download_request. intros [= Hurl _]. apply Hid.
  unfold WizdomSubtitle_id.
  by apply (inj (String.append _)) in Hurl.
Qed.

End Wizdom.

(** ** Worked cases *)

(** C1, as stated, fails for a special: the candidate's season equals the
    video's season 0, the guesser contributes nothing, and 'season' is not
    among the matches. *)
Lemma get_matches_season_zero_untagged :
  sub_season special_candidate = Some (ep_season special_episode)
  ∧ no_guess_matches (Episode special_episode)
      (no_guessit (sub_release special_candidate) "episode") = ∅
  ∧ "season" ∉ get_matches lower no_guessit no_guess_matches special_candidate
                           (Episode special_episode).
Proof.
  split_and!; [reflexivity|reflexivity|].
  rewrite <-elem_of_elements. vm_compute (elements _).
  rewrite !elem_of_cons, elem_of_nil. intros [?|[?|[?|[]]]]; discriminate.
Qed.

Lemma get_subtitles_for_episode_outcomes_witness :
  _get_subtitles_for_episode catalog_decoder
    (scripted_session [GetRaises RequestException]) "tt1234567" (Some 2%Z) (Some 5%Z)
    state0
  = ({| sent := [catalog_request "tt1234567" (Some 2%Z) (Some 5%Z)];
        logged :=
          [mkLog DEBUG "Using IMDB ID %r" [ArgStr "tt1234567"];
           mkLog WARNING
             "Error trying to search for subtitle for imdb_id: %s, season: %s, episode: %s"
             [ArgStr "tt1234567"; ArgInt (Some 2%Z); ArgInt (Some 5%Z)]] |},
     Ok (JArr []))
  ∧ _get_subtitles_for_episode catalog_decoder catalog_session "tt1234567"
      (Some 2%Z) (Some 5%Z) state0
    = ({| sent := [catalog_request "tt1234567" (Some 2%Z) (Some 5%Z)];
          logged := [mkLog DEBUG "Using IMDB ID %r" [ArgStr "tt1234567"]] |},
       Ok (JArr catalog_records)).
Proof.
  split.
  - apply (proj1 (get_subtitles_for_episode_outcomes catalog_decoder
                    (scripted_session [GetRaises RequestException])
                    "tt1234567" (Some 2%Z) (Some 5%Z) state0)).
    left. exists RequestException. reflexivity.
  - apply (proj2 (get_subtitles_for_episode_outcomes catalog_decoder catalog_session
                    "tt1234567" (Some 2%Z) (Some 5%Z) state0)
             {| status_code := 200; content := body_a |} (JArr catalog_records)).
    + reflexivity.
    + simpl. lia.
    + reflexivity.
Defined.

Lemma search_imdb_id_none_witness :
  (_search_imdb_id_body no_results_decoder sample_repr catalog_session
     "Example Show" None false state0).2 = Ok None
  ∧ length (sent (_search_imdb_id_body no_results_decoder sample_repr catalog_session
                    "Example Show" None false state0).1) = 1
  ∧ (_search_imdb_id_body tmdb_decoder sample_repr tmdb_session
       "Example Show" None false state0).2 = Ok None.
Proof.
  split_and!.
  - rewrite (proj1 (search_imdb_id_none no_results_decoder sample_repr catalog_session
                      "Example Show" None false state0
                      {| status_code := 200; content := body_a |}
                      {["results" := JArr []]}
                      eq_refl ltac:(simpl; lia) eq_refl));
      [reflexivity|right; reflexivity].
  - rewrite (proj1 (search_imdb_id_none no_results_decoder sample_repr catalog_session
                      "Example Show" None false state0
                      {| status_code := 200; content := body_a |}
                      {["results" := JArr []]}
                      eq_refl ltac:(simpl; lia) eq_refl));
      [reflexivity|right; reflexivity].
  - rewrite (proj2 (search_imdb_id_none tmdb_decoder sample_repr tmdb_session
                      "Example Show" None false state0
                      {| status_code := 200; content := body_a |}
                      tmdb_search_doc
                      eq_refl ltac:(simpl; lia) eq_refl)
               tmdb_first [] (JInt 1399)
               {| status_code := 200; content := body_b |} tmdb_detail_doc);
      [reflexivity|reflexivity|reflexivity|reflexivity|reflexivity|simpl; lia
      |reflexivity|right; reflexivity].
Defined.

Lemma download_subtitle_ambiguous_archive_witness :
  1 < length (subtitle_entries posix_splitext zip_two)
  ∧ download_subtitle crlf_to_lf posix_splitext (table_decoder [(body_a, zip_two)])
      sample_repr catalog_session example_candidate state0
    = ({| sent := [download_request sample_repr example_candidate]; logged := [] |},
       example_candidate, Raise (ProviderError "More than one file to unzip")).
Proof.
  split; [vm_compute; lia|].
  apply (download_subtitle_ambiguous_archive crlf_to_lf posix_splitext
           (table_decoder [(body_a, zip_two)]) sample_repr catalog_session
           example_candidate state0 {| status_code := 200; content := body_a |} zip_two).
  - reflexivity.
  - simpl. lia.
  - reflexivity.
  - vm_compute. lia.
Defined.

Lemma download_subtitle_single_entry_witness :
  subtitle_entries posix_splitext zip_one = [("Example.Show.S02E05.srt", srt_crlf)]
  ∧ (download_subtitle crlf_to_lf posix_splitext (table_decoder [(body_a, zip_one)])
       sample_repr catalog_session example_candidate state0).2 = Ok tt
  ∧ sub_content
      (download_subtitle crlf_to_lf posix_splitext (table_decoder [(body_a, zip_one)])
         sample_repr catalog_session example_candidate state0).1.2
    = Some [x31; x0a; x48; x69; x0a].
Proof.
  split; [vm_compute; reflexivity|].
  destruct (download_subtitle_single_entry crlf_to_lf posix_splitext
              (table_decoder [(body_a, zip_one)]) sample_repr catalog_session
              example_candidate state0 {| status_code := 200; content := body_a |}
              zip_one "Example.Show.S02E05.srt" srt_crlf)
    as [Hrun Hcontent].
  - reflexivity.
  - simpl. lia.
  - reflexivity.
  - vm_compute. reflexivity.
  - split; [by rewrite Hrun|exact Hcontent].
Defined.

Lemma download_subtitle_no_entry_witness :
  subtitle_entries posix_splitext zip_none = []
  ∧ download_subtitle crlf_to_lf posix_splitext (table_decoder [(body_a, zip_none)])
      sample_repr catalog_session example_candidate state0
    = ({| sent := [download_request sample_repr example_candidate]; logged := [] |},
       example_candidate, Raise IndexError)
  ∧ (download_subtitle crlf_to_lf posix_splitext (table_decoder [(body_a, zip_one)])
       sample_repr catalog_session example_candidate state0).2
    ≠ Raise IndexError.
Proof.
  split_and!.
  - vm_compute. reflexivity.
  - apply (proj1 (download_subtitle_no_entry crlf_to_lf posix_splitext
                    (table_decoder [(body_a, zip_none)]) sample_repr catalog_session
                    example_candidate state0
                    {| status_code := 200; content := body_a |} zip_none
                    eq_refl ltac:(simpl; lia) eq_refl)).
    vm_compute. reflexivity.
  - apply (proj2 (download_subtitle_no_entry crlf_to_lf posix_splitext
                    (table_decoder [(body_a, zip_one)]) sample_repr catalog_session
                    example_candidate state0
                    {| status_code := 200; content := body_a |} zip_one
                    eq_refl ltac:(simpl; lia) eq_refl)).
    vm_compute. discriminate.
Defined.

Lemma query_candidates_hebrew_witness :
  (query catalog_decoder sample_repr catalog_session cold_region "Example Show"
     (Some 2%Z) (Some 5%Z) None "Example.Show.S02E05.mkv" (Some "tt1234567") state0).2
  = Ok [candidate_9; candidate_10]
  ∧ Forall (λ s, sub_language s = hebrew ∧ sub_hearing_impaired s = false)
           [candidate_9; candidate_10].
Proof.
  split; [vm_compute; reflexivity|].
  apply (query_candidates_hebrew catalog_decoder sample_repr catalog_session cold_region
           "Example Show" (Some 2%Z) (Some 5%Z) None "Example.Show.S02E05.mkv"
           (Some "tt1234567") state0
           (query catalog_decoder sample_repr catalog_session cold_region "Example Show"
              (Some 2%Z) (Some 5%Z) None "Example.Show.S02E05.mkv"
              (Some "tt1234567") state0).1).
  vm_compute. reflexivity.
Defined.

Lemma query_candidate_fields_witness :
  candidate_9 ∈ [candidate_9; candidate_10]
  ∧ sub_series candidate_9 = "Example Show"
  ∧ sub_title candidate_9 = "Example Show"
  ∧ sub_season candidate_9 = Some 2%Z
  ∧ sub_episode candidate_9 = Some 5%Z
  ∧ last (sent (query catalog_decoder sample_repr catalog_session cold_region "Example Show"
                  (Some 2%Z) (Some 5%Z) None "Example.Show.S02E05.mkv"
                  (Some "tt1234567") state0).1)
    = Some (catalog_request "tt1234567" (Some 2%Z) (Some 5%Z)).
Proof.
  split; [left|].
  destruct (query_candidate_fields catalog_decoder sample_repr catalog_session cold_region
              "Example Show" (Some 2%Z) (Some 5%Z) None "Example.Show.S02E05.mkv"
              (Some "tt1234567") state0
              (query catalog_decoder sample_repr catalog_session cold_region "Example Show"
                 (Some 2%Z) (Some 5%Z) None "Example.Show.S02E05.mkv"
                 (Some "tt1234567") state0).1
              [candidate_9; candidate_10] candidate_9)
    as (H1 & H2 & H3 & H4 & H5 & _).
  - vm_compute. reflexivity.
  - left.
  - exact (conj H1 (conj H2 (conj H3 (conj H4 H5)))).
Defined.

Lemma list_subtitles_requested_languages_witness :
  (list_subtitles catalog_decoder sample_repr catalog_session cold_region
     (Episode example_episode) {[hebrew]} state0).2
  = Ok [candidate_9; candidate_10]
  ∧ Forall (λ s, sub_language s ∈ ({[hebrew]} : gset Language))
           [candidate_9; candidate_10]
  ∧ (list_subtitles catalog_decoder sample_repr catalog_session cold_region
       (Episode example_episode) ∅ state0).2
    = Ok [].
Proof.
  split_and!.
  - vm_compute. reflexivity.
  - apply (list_subtitles_requested_languages catalog_decoder sample_repr
             catalog_session cold_region (Episode example_episode) {[hebrew]} state0
             (list_subtitles catalog_decoder sample_repr catalog_session cold_region
                (Episode example_episode) {[hebrew]} state0).1
             [candidate_9; candidate_10]).
    vm_compute. reflexivity.
  - vm_compute. reflexivity.
Defined.

Lemma query_duplicate_ids_last_wins_witness :
  ∃ st3 subs,
    query catalog_decoder sample_repr catalog_session cold_region "Example Show"
      (Some 2%Z) (Some 5%Z) None "Example.Show.S02E05.mkv" (Some "tt1234567") state0
    = (st3, Ok subs)
    ∧ (∀ i j s1 s2,
         subs !! i = Some s1 → subs !! j = Some s2 →
         py_hash_key (sub_subtitle_id s1) = py_hash_key (sub_subtitle_id s2) →
         i = j)
    ∧ (candidate_9 ∈ subs).
Proof.
  destruct (query_duplicate_ids_last_wins catalog_decoder sample_repr catalog_session cold_region
              "Example Show" (Some 2%Z) (Some 5%Z) None "Example.Show.S02E05.mkv"
              (Some "tt1234567") state0 state0
              (_get_subtitles_for_episode catalog_decoder catalog_session "tt1234567"
                 (Some 2%Z) (Some 5%Z)
                 (log DEBUG "Getting the list of subtitles" [] state0).1).1
              "tt1234567" catalog_records)
    as (st3 & subs & Hq & Hdistinct & Hlast).
  - reflexivity.
  - discriminate.
  - vm_compute. reflexivity.
  - repeat (apply Forall_cons_2;
            [eexists _, _, _, _; split_and!; reflexivity|]).
    apply Forall_nil_2.
  - exists st3, subs. split_and!; [exact Hq|exact Hdistinct|].
    apply Hlast.
    exists 2, {["id" := JInt 9; "versioname" := JStr "Example.Show.S02E05.720p"]},
      (JInt 9), (JStr "Example.Show.S02E05.720p").
    split_and!; try reflexivity.
    intros j m' sid' Hj Hlookup _.
    apply lookup_lt_Some in Hlookup. simpl in Hlookup. lia.
Defined.

(** A detail record whose imdb_id is present and null is neither of the two
    cases above: [str(None)] is a non-empty string. *)
Example search_imdb_id_null_detail :
  (_search_imdb_id_body tmdb_null_decoder sample_repr tmdb_session
     "Example Show" None false state0).2 = Ok (Some "None").
Proof. vm_compute. reflexivity. Qed.

(** *** Worked cases of the further properties *)

Lemma get_matches_movie_only_guessed_witness :
  "season" ≠ "title"
  ∧ ("season" ∈ get_matches lower no_guessit no_guess_matches example_candidate
                            (Movie example_movie)
     ↔ "season" ∈ no_guess_matches (Movie example_movie)
                    (no_guessit (sub_release example_candidate) "movie")).
Proof.
  split; [discriminate|].
  apply (get_matches_movie_only_guessed lower no_guessit no_guess_matches
           example_candidate example_movie "season").
  discriminate.
Defined.

Lemma search_imdb_id_nonempty_witness :
  (_search_imdb_id_body tmdb_found_decoder sample_repr tmdb_session
     "Example Show" None false state0).2 = Ok (Some "tt1234567")
  ∧ "tt1234567" ≠ "".
Proof.
  split; [vm_compute; reflexivity|].
  apply (search_imdb_id_nonempty tmdb_found_decoder sample_repr tmdb_session
           "Example Show" None false state0
           (_search_imdb_id_body tmdb_found_decoder sample_repr tmdb_session
              "Example Show" None false state0).1 "tt1234567").
  vm_compute. reflexivity.
Defined.

Lemma search_imdb_id_found_witness :
  (_search_imdb_id_body tmdb_found_decoder sample_repr tmdb_session
     "Grey's Show" (Some 2005%Z) false state0).2 = Ok (Some "tt1234567")
  ∧ sent (_search_imdb_id_body tmdb_found_decoder sample_repr tmdb_session
            "Grey's Show" (Some 2005%Z) false state0).1
    = [tmdb_search_request "tv" "Greys Show" (Some 2005%Z);
       tmdb_detail_request sample_repr "tv" (JInt 1399) false].
Proof.
  apply (search_imdb_id_found tmdb_found_decoder sample_repr tmdb_session
           "Grey's Show" (Some 2005%Z) false state0
           {| status_code := 200; content := body_a |}
           {| status_code := 200; content := body_b |}
           tmdb_search_doc tmdb_first {["imdb_id" := JStr "tt1234567"]} []
           (JInt 1399) "tt1234567").
  - reflexivity.
  - simpl. lia.
  - reflexivity.
  - reflexivity.
  - reflexivity.
  - reflexivity.
  - reflexivity.
  - simpl. lia.
  - reflexivity.
  - reflexivity.
  - discriminate.
Defined.

Lemma search_imdb_id_propagates_witness :
  (_search_imdb_id_body tmdb_decoder sample_repr
     (scripted_session [GetRaises RequestException]) "Example Show" None true state0).2
  = Raise RequestException
  ∧ (_search_imdb_id_body tmdb_decoder sample_repr (scripted_session [error_response 404])
       "Example Show" None true state0).2
    = Raise (HTTPError 404)
  ∧ (_search_imdb_id_body tmdb_decoder sample_repr
       (scripted_session [ok_response body_a; error_response 503])
       "Example Show" None true state0).2
    = Raise (HTTPError 503).
Proof.
  split_and!.
  - apply (proj1 (search_imdb_id_propagates tmdb_decoder sample_repr
                    (scripted_session [GetRaises RequestException])
                    "Example Show" None true state0) RequestException).
    reflexivity.
  - apply (proj1 (proj2 (search_imdb_id_propagates tmdb_decoder sample_repr
                           (scripted_session [error_response 404])
                           "Example Show" None true state0))
             {| status_code := 404; content := [] |}).
    + reflexivity.
    + simpl. lia.
  - apply (proj2 (proj2 (search_imdb_id_propagates tmdb_decoder sample_repr
                           (scripted_session [ok_response body_a; error_response 503])
                           "Example Show" None true state0))
             {| status_code := 200; content := body_a |}
             {| status_code := 503; content := [] |}
             tmdb_search_doc tmdb_first [] (JInt 1399)).
    + reflexivity.
    + simpl. lia.
    + reflexivity.
    + reflexivity.
    + reflexivity.
    + reflexivity.
    + reflexivity.
    + simpl. lia.
Defined.

Lemma search_imdb_id_no_tmdb_id_witness :
  (_search_imdb_id_body tmdb_nameless_decoder sample_repr tmdb_session
     "Example Show" None false state0).2 = Ok None
  ∧ sent (_search_imdb_id_body tmdb_nameless_decoder sample_repr tmdb_session
            "Example Show" None false state0).1
    = [tmdb_search_request "tv" "Example Show" None].
Proof.
  apply (search_imdb_id_no_tmdb_id tmdb_nameless_decoder sample_repr tmdb_session
           "Example Show" None false state0
           {| status_code := 200; content := body_a |}
           tmdb_nameless_doc tmdb_nameless_first []).
  - reflexivity.
  - simpl. lia.
  - reflexivity.
  - reflexivity.
  - reflexivity.
Defined.

Lemma query_supplied_id_one_request_witness :
  sent (query catalog_decoder sample_repr catalog_session cold_region "Example Show"
          (Some 2%Z) (Some 5%Z) None "Example.Show.S02E05.mkv" (Some "tt1234567")
          state0).1
  = [catalog_request "tt1234567" (Some 2%Z) (Some 5%Z)].
Proof.
  apply (query_supplied_id_one_request catalog_decoder sample_repr catalog_session cold_region
           "Example Show" (Some 2%Z) (Some 5%Z) None "Example.Show.S02E05.mkv"
           "tt1234567" state0).
  discriminate.
Defined.

Lemma query_no_identifier_witness :
  (_search_imdb_id no_results_decoder sample_repr catalog_session cold_region "Example Show" None
     false state0).2 = Ok None
  ∧ query no_results_decoder sample_repr catalog_session cold_region "Example Show"
      (Some 2%Z) (Some 5%Z) None "Example.Show.S02E05.mkv" None state0
    = ((_search_imdb_id no_results_decoder sample_repr catalog_session cold_region "Example Show"
          None false state0).1, Ok []).
Proof.
  split; [vm_compute; reflexivity|].
  apply (query_no_identifier no_results_decoder sample_repr catalog_session cold_region
           "Example Show" (Some 2%Z) (Some 5%Z) None "Example.Show.S02E05.mkv" None
           state0).
  - reflexivity.
  - vm_compute. reflexivity.
Defined.

Lemma query_catalog_failure_witness :
  (query catalog_decoder sample_repr (scripted_session [error_response 500]) cold_region
     "Example Show" (Some 2%Z) (Some 5%Z) None "Example.Show.S02E05.mkv"
     (Some "tt1234567") state0).2 = Ok []
  ∧ sent (query catalog_decoder sample_repr (scripted_session [error_response 500]) cold_region
            "Example Show" (Some 2%Z) (Some 5%Z) None "Example.Show.S02E05.mkv"
            (Some "tt1234567") state0).1
    = [catalog_request "tt1234567" (Some 2%Z) (Some 5%Z)].
Proof.
  apply (query_catalog_failure catalog_decoder sample_repr
           (scripted_session [error_response 500]) cold_region
           "Example Show" (Some 2%Z) (Some 5%Z) None "Example.Show.S02E05.mkv"
           (Some "tt1234567") state0 state0 "tt1234567").
  - reflexivity.
  - discriminate.
  - right. exists {| status_code := 500; content := [] |}.
    split; [reflexivity|]. left. simpl. lia.
Defined.

Lemma query_malformed_record_witness :
  (query broken_catalog_decoder sample_repr catalog_session cold_region "Example Show"
     (Some 2%Z) (Some 5%Z) None "Example.Show.S02E05.mkv" (Some "tt1234567")
     state0).2 = Raise KeyError.
Proof.
  apply (proj1 (query_malformed_record broken_catalog_decoder sample_repr
                  catalog_session cold_region "Example Show" (Some 2%Z) (Some 5%Z) None
                  "Example.Show.S02E05.mkv" (Some "tt1234567") state0 state0
                  (_get_subtitles_for_episode broken_catalog_decoder catalog_session
                     "tt1234567" (Some 2%Z) (Some 5%Z)
                     (log DEBUG "Getting the list of subtitles" [] state0).1).1
                  "tt1234567" [record_9] record_without_id [record_9]
                  eq_refl ltac:(discriminate) ltac:(vm_compute; reflexivity)
                  ltac:(apply Forall_cons_2;
                        [eexists _, _, _, _; split_and!; reflexivity
                        |apply Forall_nil_2]))
           {["versioname" := JStr "Example.Show.S02E05.WEB"]}).
  - reflexivity.
  - left. reflexivity.
Defined.

Lemma query_order_first_seen_witness :
  ∃ subs ks,
    (query catalog_decoder sample_repr catalog_session cold_region "Example Show"
       (Some 2%Z) (Some 5%Z) None "Example.Show.S02E05.mkv" (Some "tt1234567")
       state0).2 = Ok subs
    ∧ Forall2 (λ r k, ∃ m sid, r = JObj m ∧ m !! "id" = Some sid
                               ∧ py_hash_key sid = Ok k) catalog_records ks
    ∧ (λ s, py_hash_key (sub_subtitle_id s)) <$> subs
      = Ok <$> reverse (remove_dups (reverse ks))
    ∧ length subs ≤ length catalog_records.
Proof.
  apply (query_order_first_seen catalog_decoder sample_repr catalog_session cold_region
           "Example Show" (Some 2%Z) (Some 5%Z) None "Example.Show.S02E05.mkv"
           (Some "tt1234567") state0 state0
           (_get_subtitles_for_episode catalog_decoder catalog_session "tt1234567"
              (Some 2%Z) (Some 5%Z)
              (log DEBUG "Getting the list of subtitles" [] state0).1).1
           "tt1234567" catalog_records).
  - reflexivity.
  - discriminate.
  - vm_compute. reflexivity.
  - repeat (apply Forall_cons_2;
            [eexists _, _, _, _; split_and!; reflexivity|]).
    apply Forall_nil_2.
Defined.

Lemma list_subtitles_candidates_match_witness :
  "series" ∈ get_matches lower no_guessit no_guess_matches candidate_9
               (Episode example_episode)
  ∧ "season" ∈ get_matches lower no_guessit no_guess_matches candidate_9
                 (Episode example_episode)
  ∧ "episode" ∈ get_matches lower no_guessit no_guess_matches candidate_9
                  (Episode example_episode)
  ∧ "series_imdb_id" ∈ get_matches lower no_guessit no_guess_matches candidate_9
                         (Episode example_episode).
Proof.
  destruct (list_subtitles_candidates_match lower no_guessit no_guess_matches
              catalog_decoder sample_repr catalog_session cold_region example_episode {[hebrew]}
              state0
              (list_subtitles catalog_decoder sample_repr catalog_session cold_region
                 (Episode example_episode) {[hebrew]} state0).1
              [candidate_9; candidate_10] candidate_9)
    as (H1 & H2 & H3 & H4).
  - vm_compute. reflexivity.
  - left.
  - split_and!; [apply H1|apply H2|apply H3|apply H4]; discriminate || reflexivity.
Defined.

Lemma list_subtitles_hebrew_requested_witness :
  hebrew ∈ ({[hebrew]} : gset Language)
  ∧ list_subtitles catalog_decoder sample_repr catalog_session cold_region
      (Episode example_episode) {[hebrew]} state0
    = query catalog_decoder sample_repr catalog_session cold_region "Example Show"
        (Some 2%Z) (Some 5%Z) None "Example.Show.S02E05.mkv" (Some "tt1234567")
        state0.
Proof.
  split; [apply elem_of_singleton; reflexivity|].
  apply (list_subtitles_hebrew_requested catalog_decoder sample_repr catalog_session cold_region
           (Episode example_episode) {[hebrew]} state0).
  apply elem_of_singleton. reflexivity.
Defined.

Lemma list_subtitles_movie_request_witness :
  sent (list_subtitles catalog_decoder sample_repr catalog_session cold_region
          (Movie example_movie) {[hebrew]} state0).1
  = [{| req_url :=
          "https://wizdom.xyz/api/search?action=by_id&imdb=tt0133093&season=None&episode=None";
        req_headers := [];
        req_timeout := None |}].
Proof.
  apply (list_subtitles_movie_request catalog_decoder sample_repr catalog_session cold_region
           example_movie {[hebrew]} state0 "tt0133093").
  - reflexivity.
  - discriminate.
Defined.

Lemma list_subtitles_special_as_movie_witness :
  (∃ rest,
     sent (list_subtitles no_results_decoder sample_repr catalog_session cold_region
             (Episode special_without_id) {[hebrew]} state0).1
     = tmdb_search_request "movie" "Example Show" None :: rest)
  ∧ ∀ s,
      s ∈ [WizdomSubtitle_init hebrew false "https://wizdom.xyz/#/movies/tt1234567"
             "Example Show" (Some 0%Z) (Some 3%Z) "Example Show" "tt1234567"
             (JInt 9) (JStr "Example.Show.S02E05.720p");
           WizdomSubtitle_init hebrew false "https://wizdom.xyz/#/movies/tt1234567"
             "Example Show" (Some 0%Z) (Some 3%Z) "Example Show" "tt1234567"
             (JInt 10) (JStr "Example.Show.S02E05.WEB")] →
      sub_page_link s = "https://wizdom.xyz/#/movies/" +:+ sub_imdb_id s.
Proof.
  split.
  - apply (proj1 (list_subtitles_special_as_movie no_results_decoder sample_repr
                    catalog_session cold_region special_without_id {[hebrew]} state0
                    (or_introl eq_refl))).
    + reflexivity.
    + reflexivity.
  - intros s Hs.
    eapply (proj2 (list_subtitles_special_as_movie catalog_decoder sample_repr
                     catalog_session cold_region special_episode {[hebrew]} state0
                     (or_introl eq_refl))
              (list_subtitles catalog_decoder sample_repr catalog_session cold_region
                 (Episode special_episode) {[hebrew]} state0).1);
      [|exact Hs].
    vm_compute. reflexivity.
Defined.

Lemma download_subtitle_returns_inv_witness :
  ∃ r zf name data,
    catalog_session (sent state0) (download_request sample_repr example_candidate)
    = GetReturns r
    ∧ ¬ (400 ≤ status_code r < 600)%Z
    ∧ table_decoder [(body_a, zip_one)] (content r) = Some zf
    ∧ subtitle_entries posix_splitext zf = [(name, data)]
    ∧ sub_content
        (download_subtitle crlf_to_lf posix_splitext
           (table_decoder [(body_a, zip_one)]) sample_repr catalog_session
           example_candidate state0).1.2
      = Some (crlf_to_lf data).
Proof.
  destruct (download_subtitle_returns_inv crlf_to_lf posix_splitext
              (table_decoder [(body_a, zip_one)]) sample_repr catalog_session
              example_candidate
              (download_subtitle crlf_to_lf posix_splitext
                 (table_decoder [(body_a, zip_one)]) sample_repr catalog_session
                 example_candidate state0).1.2
              state0
              (download_subtitle crlf_to_lf posix_splitext
                 (table_decoder [(body_a, zip_one)]) sample_repr catalog_session
                 example_candidate state0).1.1)
    as (r & zf & name & data & Hr & Hs & Hz & Hent & Hcontent & _).
  - vm_compute. reflexivity.
  - exists r, zf, name, data. split_and!; assumption.
Defined.

Lemma download_subtitle_propagates_witness :
  (download_subtitle crlf_to_lf posix_splitext (table_decoder [(body_a, zip_one)])
     sample_repr (scripted_session [GetRaises RequestException]) example_candidate
     state0).2 = Raise RequestException
  ∧ (download_subtitle crlf_to_lf posix_splitext (table_decoder [(body_a, zip_one)])
       sample_repr (scripted_session [error_response 404]) example_candidate
       state0).2 = Raise (HTTPError 404)
  ∧ download_subtitle crlf_to_lf posix_splitext (table_decoder [(body_a, zip_one)])
      sample_repr (scripted_session [ok_response body_b]) example_candidate state0
    = ({| sent := [download_request sample_repr example_candidate]; logged := [] |},
       example_candidate, Raise BadZipFile).
Proof.
  split_and!.
  - rewrite (proj1 (download_subtitle_propagates crlf_to_lf posix_splitext
                      (table_decoder [(body_a, zip_one)]) sample_repr
                      (scripted_session [GetRaises RequestException])
                      example_candidate state0) RequestException eq_refl).
    reflexivity.
  - rewrite (proj1 (proj2 (download_subtitle_propagates crlf_to_lf posix_splitext
                             (table_decoder [(body_a, zip_one)]) sample_repr
                             (scripted_session [error_response 404])
                             example_candidate state0))
               {| status_code := 404; content := [] |} eq_refl
               ltac:(simpl; lia)).
    reflexivity.
  - apply (proj2 (proj2 (download_subtitle_propagates crlf_to_lf posix_splitext
                           (table_decoder [(body_a, zip_one)]) sample_repr
                           (scripted_session [ok_response body_b])
                           example_candidate state0))
             {| status_code := 200; content := body_b |}).
    + reflexivity.
    + simpl. lia.
    + reflexivity.
Defined.

Lemma query_ids_distinct_witness :
  WizdomSubtitle_id sample_repr candidate_9 ≠ WizdomSubtitle_id sample_repr candidate_10
  ∧ download_request sample_repr candidate_9 ≠ download_request sample_repr candidate_10.
Proof.
  apply (query_ids_distinct catalog_decoder sample_repr catalog_session cold_region
           "Example Show" (Some 2%Z) (Some 5%Z) None "Example.Show.S02E05.mkv"
           (Some "tt1234567") state0
           (query catalog_decoder sample_repr catalog_session cold_region "Example Show"
              (Some 2%Z) (Some 5%Z) None "Example.Show.S02E05.mkv"
              (Some "tt1234567") state0).1
           [candidate_9; candidate_10] 0 1 candidate_9 candidate_10).
  - vm_compute. reflexivity.
  - reflexivity.
  - reflexivity.
  - lia.
  - left. exists 9%Z, 10%Z. split; reflexivity.
Defined.

Lemma search_imdb_id_null_imdb_id_witness :
  (_search_imdb_id tmdb_null_decoder sample_repr tmdb_session cold_region
     "Example Show" None false state0).2 = Ok (Some "None")
  ∧ sent (_search_imdb_id tmdb_null_decoder sample_repr tmdb_session cold_region
            "Example Show" None false state0).1
    = [tmdb_search_request "tv" "Example Show" None;
       tmdb_detail_request sample_repr "tv" (JInt 1399) false].
Proof.
  apply (search_imdb_id_null_imdb_id tmdb_null_decoder sample_repr tmdb_session
           cold_region "Example Show" None false state0
           {| status_code := 200; content := body_a |}
           {| status_code := 200; content := body_b |}
           tmdb_search_doc tmdb_first {["imdb_id" := JNull]} [] (JInt 1399)).
  - reflexivity.
  - reflexivity.
  - simpl. lia.
  - reflexivity.
  - reflexivity.
  - reflexivity.
  - reflexivity.
  - reflexivity.
  - simpl. lia.
  - reflexivity.
  - reflexivity.
Defined.

Lemma search_imdb_id_apostrophes_witness :
  (_search_imdb_id tmdb_found_decoder sample_repr tmdb_session cold_region
     "Grey's Show" None false state0).2
  = (_search_imdb_id tmdb_found_decoder sample_repr tmdb_session cold_region
       "Greys Show" None false state0).2
  ∧ sent (_search_imdb_id tmdb_found_decoder sample_repr tmdb_session cold_region
            "Grey's Show" None false state0).1
    = sent (_search_imdb_id tmdb_found_decoder sample_repr tmdb_session cold_region
              "Greys Show" None false state0).1.
Proof.
  apply (search_imdb_id_apostrophes tmdb_found_decoder sample_repr tmdb_session
           cold_region "Grey's Show" None false state0).
  - reflexivity.
  - reflexivity.
Defined.

(** With a value in the region the call sends nothing, and [query] goes
    straight to the catalog. *)
Example search_imdb_id_cached :
  _search_imdb_id tmdb_decoder sample_repr catalog_session warm_region
    "Example Show" None false state0
  = (state0, Ok (Some "tt1234567"))
  ∧ sent (query catalog_decoder sample_repr catalog_session warm_region "Example Show"
            (Some 2%Z) (Some 5%Z) None "Example.Show.S02E05.mkv" None state0).1
    = [catalog_request "tt1234567" (Some 2%Z) (Some 5%Z)].
Proof. split; vm_compute; reflexivity. Qed.
